(** * Chess clock controller (serwer.py): model and verification

    A shallow embedding of the clock state machine of [ChessSystem] and of the
    BLE write handler [on_write].  Integers are Python integers, hence [Z];
    text and byte strings are [string] (a Python [str] is represented by its
    UTF-8 encoding, on which [startswith] and [split(":")] act exactly as on
    the text itself); the display is a log of the frames pushed to it.
    The two [while True] loops are taken one iteration at a time: an iteration
    has no [await] between its reads and writes of the state, so iterations
    and handler calls interleave as whole steps.  Console output ([print]) and
    the lengths of the sleeps are left out. *)

From Stdlib Require Import ZArith List String Ascii Bool Lia.
Import ListNotations.

Local Open Scope Z_scope.

(** ** Python results: a value or a raised exception *)

Inductive exn : Type :=
| UnicodeDecodeError
| IndexError
| ValueError.

Inductive result (A : Type) : Type :=
| Ok (a : A)
| Raise (e : exn).

Arguments Ok {A} a.
Arguments Raise {A} e.

Definition bind {A B : Type} (r : result A) (k : A -> result B) : result B :=
  match r with
  | Ok a => k a
  | Raise e => Raise e
  end.

Notation "x <- r ;; k" := (bind r (fun x => k))
  (at level 61, r at next level, right associativity).

(** [try: body / except Exception: handler]; every exception of the model
    derives from [Exception]. *)
Definition try_except {A : Type} (body : result A) (handler : exn -> A) : result A :=
  match body with
  | Ok a => Ok a
  | Raise e => Ok (handler e)
  end.

(** ** Data model *)

(** [chess.Color] is [bool], with [chess.WHITE = True], [chess.BLACK = False]. *)
Definition Color : Type := bool.
Definition WHITE : Color := true.
Definition BLACK : Color := false.

(** The side that is not [c]. *)
Definition opponent (c : Color) : Color := negb c.

(** The board is only ever created and reset; it is represented by the stack
    of moves played since the starting position. *)
Definition Board : Type := list string.
Definition chess_Board : Board := [].
Definition board_reset (b : Board) : Board := [].

Inductive Font : Type := f_big | f_small.

(** The drawing calls issued on a canvas. *)
Inductive DrawOp : Type :=
| Rectangle (box : Z * Z * Z * Z) (fill : string) (outline : option string) (width : Z)
| Text (xy : Z * Z) (text : string) (fill : string) (font : Font).

(** One canvas, flushed to the display when its [with] block ends. *)
Definition Frame : Type := list DrawOp.

Definition C_BEIGE : string := "#463B2A".
Definition C_BROWN_D : string := "#412C28".
Definition C_BROWN_L : string := "#D18164".
Definition C_GOLD : string := "#C6A664".

(** The fields of [ChessSystem] that the clock logic reads or writes.
    [device] is [None] when the display failed to initialise, otherwise the
    frames shown so far, newest first. *)
Record ChessSystem : Type := mkChessSystem {
  device : option (list Frame);
  board : Board;
  elo : Z;
  white_time : Z;
  black_time : Z;
  current_turn : Color;
  game_active : bool
}.

Definition set_device (d : option (list Frame)) (s : ChessSystem) : ChessSystem :=
  mkChessSystem d (board s) (elo s) (white_time s) (black_time s)
                (current_turn s) (game_active s).

Definition set_board (b : Board) (s : ChessSystem) : ChessSystem :=
  mkChessSystem (device s) b (elo s) (white_time s) (black_time s)
                (current_turn s) (game_active s).

Definition set_elo (e : Z) (s : ChessSystem) : ChessSystem :=
  mkChessSystem (device s) (board s) e (white_time s) (black_time s)
                (current_turn s) (game_active s).

Definition set_white_time (t : Z) (s : ChessSystem) : ChessSystem :=
  mkChessSystem (device s) (board s) (elo s) t (black_time s)
                (current_turn s) (game_active s).

Definition set_black_time (t : Z) (s : ChessSystem) : ChessSystem :=
  mkChessSystem (device s) (board s) (elo s) (white_time s) t
                (current_turn s) (game_active s).

Definition set_current_turn (c : Color) (s : ChessSystem) : ChessSystem :=
  mkChessSystem (device s) (board s) (elo s) (white_time s) (black_time s)
                c (game_active s).

Definition set_game_active (a : bool) (s : ChessSystem) : ChessSystem :=
  mkChessSystem (device s) (board s) (elo s) (white_time s) (black_time s)
                (current_turn s) a.

(** [ChessSystem.__init__], section 4 (game state); [dev] is the outcome of
    the display initialisation of section 2. *)
Definition ChessSystem_init (dev : option (list Frame)) : ChessSystem :=
  mkChessSystem dev chess_Board 800 600 600 WHITE false.

(** ** Integer formatting: [str(n)] and the format spec [02d] *)

Definition digit_char (d : Z) : ascii := ascii_of_N (Z.to_N (48 + d)).

(** Decimal digits of a non-negative [n], most significant first, pushed in
    front of [acc]. *)
Fixpoint digits_fuel (fuel : nat) (n : Z) (acc : string) : string :=
  match fuel with
  | O => acc
  | S f =>
      let acc' := String (digit_char (n mod 10)) acc in
      if n <? 10 then acc' else digits_fuel f (n / 10) acc'
  end.

Definition digits (n : Z) : string :=
  digits_fuel (S (Z.to_nat (Z.log2 n))) n EmptyString.

(** [str(n)] for an [int]. *)
Definition py_str (n : Z) : string :=
  if n <? 0 then String "-" (digits (- n)) else digits n.

(** [f"{n:02d}"]: sign-aware zero padding to a minimum width of 2. *)
Definition fmt_02d (n : Z) : string :=
  if n <? 0 then String "-" (digits (- n))
  else
    let d := digits n in
    if (String.length d <? 2)%nat then String "0" d else d.

(** [divmod(a, b)] for [b > 0]: floor division and its remainder. *)
Definition py_divmod (a b : Z) : Z * Z := (a / b, a mod b).

(** ** Rendering: [draw_clock] *)

Definition clock_text (t : Z) : string :=
  let (m, s) := py_divmod t 60 in
  (fmt_02d m ++ ":" ++ fmt_02d s)%string.

(** The text of the idle banner, UTF-8 encoded. *)
Definition banner_text : string := "POŁĄCZ...".

Definition clock_frame (s : ChessSystem) : Frame :=
  let w_outline := if Bool.eqb (current_turn s) WHITE then C_GOLD else C_BROWN_D in
  let b_outline := if Bool.eqb (current_turn s) BLACK then C_GOLD else C_BROWN_D in
  [ Rectangle (0, 0, 480, 320) C_BEIGE None 1;
    Rectangle (10, 10, 470, 150) C_BROWN_L (Some w_outline) 5;
    Text (30, 25) "GRACZ" C_BROWN_D f_small;
    Text (150, 45) (clock_text (white_time s)) C_BROWN_D f_big;
    Rectangle (10, 160, 470, 300) C_BROWN_L (Some b_outline) 5;
    Text (30, 175) ("BOT [ELO " ++ py_str (elo s) ++ "]")%string C_BROWN_D f_small;
    Text (150, 195) (clock_text (black_time s)) C_BROWN_D f_big ]
  ++ (if negb (game_active s) then [Text (330, 15) banner_text "red" f_small] else []).

Definition draw_clock (s : ChessSystem) : ChessSystem :=
  match device s with
  | None => s
  | Some shown => set_device (Some (clock_frame s :: shown)) s
  end.

(** ** The clock state machine *)

(** One iteration of the [while True] loop of [update_timer], up to its
    [sleep(1)]. *)
Definition update_timer (s : ChessSystem) : ChessSystem :=
  if game_active s then
    let s1 :=
      if Bool.eqb (current_turn s) WHITE && (white_time s >? 0) then
        set_white_time (white_time s - 1) s
      else if Bool.eqb (current_turn s) BLACK && (black_time s >? 0) then
        set_black_time (black_time s - 1) s
      else s in
    let s2 :=
      if (white_time s1 <=? 0) || (black_time s1 <=? 0) then
        set_game_active false s1
      else s1 in
    draw_clock s2
  else s.

(** One iteration of the [while True] loop of [watch_buttons]; the arguments
    are what [GPIO.input] reads on the two pins ([true] for [GPIO.HIGH]). *)
Definition watch_buttons (btn_white btn_black : bool) (s : ChessSystem) : ChessSystem :=
  if game_active s then
    if btn_white && Bool.eqb (current_turn s) WHITE then
      draw_clock (set_current_turn BLACK s)
    else if btn_black && Bool.eqb (current_turn s) BLACK then
      draw_clock (set_current_turn WHITE s)
    else s
  else s.

Definition start_new_game (elo_val minutes : Z) (s : ChessSystem) : ChessSystem :=
  let s := set_elo elo_val s in
  let s := set_white_time (minutes * 60) s in
  let s := set_black_time (minutes * 60) s in
  let s := set_board (board_reset (board s)) s in
  let s := set_game_active true s in
  let s := set_current_turn WHITE s in
  draw_clock s.

(** ** Text operations used by the write handler *)

Definition byte_of (c : ascii) : N := N_of_ascii c.

Definition in_range (lo hi b : N) : bool := ((lo <=? b) && (b <=? hi))%N.

(** A continuation byte [10xxxxxx]. *)
Definition is_cont (c : ascii) : bool := in_range 128 191 (byte_of c).

(** Well-formed UTF-8: no overlong forms, no surrogates, nothing above
    U+10FFFF. *)
Fixpoint utf8_valid (s : string) : bool :=
  match s with
  | EmptyString => true
  | String c0 r0 =>
      let b0 := byte_of c0 in
      if (b0 <? 128)%N then utf8_valid r0
      else
        match r0 with
        | EmptyString => false
        | String c1 r1 =>
            let b1 := byte_of c1 in
            if in_range 194 223 b0 then is_cont c1 && utf8_valid r1
            else
              match r1 with
              | EmptyString => false
              | String c2 r2 =>
                  if in_range 224 239 b0 then
                    (if (b0 =? 224)%N then in_range 160 191 b1
                     else if (b0 =? 237)%N then in_range 128 159 b1
                     else is_cont c1)
                    && is_cont c2 && utf8_valid r2
                  else
                    match r2 with
                    | EmptyString => false
                    | String c3 r3 =>
                        in_range 240 244 b0
                        && (if (b0 =? 240)%N then in_range 144 191 b1
                            else if (b0 =? 244)%N then in_range 128 143 b1
                            else is_cont c1)
                        && is_cont c2 && is_cont c3 && utf8_valid r3
                    end
              end
        end
  end.

(** [value.decode("utf-8")] *)
Definition decode_utf8 (value : string) : result string :=
  if utf8_valid value then Ok value else Raise UnicodeDecodeError.

(** [s.split(":")] *)
Fixpoint split_colon (s : string) : list string :=
  match s with
  | EmptyString => [EmptyString]
  | String c r =>
      if Ascii.eqb c ":" then EmptyString :: split_colon r
      else
        match split_colon r with
        | p :: ps => String c p :: ps
        | [] => [String c EmptyString]
        end
  end.

(** [parts[i]] for [i >= 0] *)
Definition py_index (parts : list string) (i : nat) : result string :=
  match nth_error parts i with
  | Some p => Ok p
  | None => Raise IndexError
  end.

(** [P] holds of every character of [s]. *)
Fixpoint string_forall (P : ascii -> bool) (s : string) : bool :=
  match s with
  | EmptyString => true
  | String c r => P c && string_forall P r
  end.

Definition is_ascii (c : ascii) : bool := (byte_of c <? 128)%N.

(** The code points of a well-formed UTF-8 text, by the same case analysis
    as [utf8_valid]. *)
Fixpoint utf8_code_points (s : string) : option (list N) :=
  match s with
  | EmptyString => Some []
  | String c0 r0 =>
      let b0 := byte_of c0 in
      if (b0 <? 128)%N then option_map (cons b0) (utf8_code_points r0)
      else
        match r0 with
        | EmptyString => None
        | String c1 r1 =>
            let b1 := byte_of c1 in
            if in_range 194 223 b0 then
              if is_cont c1 then
                option_map (cons ((b0 - 192) * 64 + (b1 - 128))%N)
                           (utf8_code_points r1)
              else None
            else
              match r1 with
              | EmptyString => None
              | String c2 r2 =>
                  let b2 := byte_of c2 in
                  if in_range 224 239 b0 then
                    if (if (b0 =? 224)%N then in_range 160 191 b1
                        else if (b0 =? 237)%N then in_range 128 159 b1
                        else is_cont c1)
                       && is_cont c2
                    then
                      option_map
                        (cons ((b0 - 224) * 4096 + (b1 - 128) * 64 + (b2 - 128))%N)
                        (utf8_code_points r2)
                    else None
                  else
                    match r2 with
                    | EmptyString => None
                    | String c3 r3 =>
                        let b3 := byte_of c3 in
                        if in_range 240 244 b0
                           && (if (b0 =? 240)%N then in_range 144 191 b1
                               else if (b0 =? 244)%N then in_range 128 143 b1
                               else is_cont c1)
                           && is_cont c2 && is_cont c3
                        then
                          option_map
                            (cons ((b0 - 240) * 262144 + (b1 - 128) * 4096
                                   + (b2 - 128) * 64 + (b3 - 128))%N)
                            (utf8_code_points r3)
                        else None
                    end
              end
        end
  end.

(** *** [int(text)] in base 10

    As CPython reads a [str]: a text that is not pure ASCII is first rewritten
    code point by code point (below 127 kept, a Unicode space made a blank, a
    Unicode decimal digit made its ASCII digit, anything else made [?], where
    the text is cut); the ASCII text is then read by [PyLong_FromString]:
    surrounding ASCII whitespace is skipped, one sign is allowed, and single
    underscores may separate digits.  The two character tables are those of
    Unicode 14.0.  No limit is put on the number of digits. *)

(** [Py_UNICODE_ISSPACE] *)
Definition unicode_space (cp : N) : bool :=
  in_range 0x9 0xD cp || in_range 0x1C 0x20 cp
  || (cp =? 0x85)%N || (cp =? 0xA0)%N || (cp =? 0x1680)%N
  || in_range 0x2000 0x200A cp
  || (cp =? 0x2028)%N || (cp =? 0x2029)%N || (cp =? 0x202F)%N
  || (cp =? 0x205F)%N || (cp =? 0x3000)%N.

(** The code points of the digit zero of every script; the nine that follow
    each of them are its digits one to nine. *)
Definition decimal_zeros : list N :=
  [
    0x30; 0x660; 0x6F0; 0x7C0; 0x966; 0x9E6;
    0xA66; 0xAE6; 0xB66; 0xBE6; 0xC66; 0xCE6;
    0xD66; 0xDE6; 0xE50; 0xED0; 0xF20; 0x1040;
    0x1090; 0x17E0; 0x1810; 0x1946; 0x19D0; 0x1A80;
    0x1A90; 0x1B50; 0x1BB0; 0x1C40; 0x1C50; 0xA620;
    0xA8D0; 0xA900; 0xA9D0; 0xA9F0; 0xAA50; 0xABF0;
    0xFF10; 0x104A0; 0x10D30; 0x11066; 0x110F0; 0x11136;
    0x111D0; 0x112F0; 0x11450; 0x114D0; 0x11650; 0x116C0;
    0x11730; 0x118E0; 0x11950; 0x11C50; 0x11D50; 0x11DA0;
    0x16A60; 0x16AC0; 0x16B50; 0x1D7CE; 0x1D7D8; 0x1D7E2;
    0x1D7EC; 0x1D7F6; 0x1E140; 0x1E2F0; 0x1E950; 0x1FBF0 ]%N.

(** [Py_UNICODE_TODECIMAL] *)
Definition unicode_decimal (cp : N) : option Z :=
  match find (fun zero => in_range zero (zero + 9) cp) decimal_zeros with
  | Some zero => Some (Z.of_N (cp - zero))
  | None => None
  end.

(** [_PyUnicode_TransformDecimalAndSpaceToASCII], on a text that is not pure
    ASCII. *)
Fixpoint to_ascii_digits (cps : list N) : string :=
  match cps with
  | [] => EmptyString
  | cp :: rest =>
      if (cp <? 127)%N then String (ascii_of_N cp) (to_ascii_digits rest)
      else if unicode_space cp then String " " (to_ascii_digits rest)
      else
        match unicode_decimal cp with
        | Some d => String (digit_char d) (to_ascii_digits rest)
        | None => String "?" EmptyString
        end
  end.

Definition is_space (c : ascii) : bool :=
  let b := byte_of c in in_range 9 13 b || (b =? 32)%N.

Definition digit_val (c : ascii) : option Z :=
  let b := byte_of c in
  if in_range 48 57 b then Some (Z.of_N b - 48) else None.

Fixpoint lstrip (s : string) : string :=
  match s with
  | EmptyString => EmptyString
  | String c r => if is_space c then lstrip r else s
  end.

Fixpoint all_space (s : string) : bool :=
  match s with
  | EmptyString => true
  | String c r => is_space c && all_space r
  end.

(** What the digit scanner saw last. *)
Inductive prev : Type := PStart | PDigit | PUnderscore.

Fixpoint scan_digits (acc : Z) (p : prev) (s : string) : option Z :=
  match s with
  | EmptyString =>
      match p with
      | PDigit => Some acc
      | _ => None
      end
  | String c r =>
      match digit_val c with
      | Some d => scan_digits (acc * 10 + d) PDigit r
      | None =>
          match p with
          | PDigit =>
              if Ascii.eqb c "_" then scan_digits acc PUnderscore r
              else if all_space s then Some acc else None
          | _ => None
          end
      end
  end.

Definition PyLong_FromString (text : string) : result Z :=
  let s1 := lstrip text in
  let (sign, s2) :=
    match s1 with
    | String c r =>
        if Ascii.eqb c "+" then (1, r)
        else if Ascii.eqb c "-" then (-1, r)
        else (1, s1)
    | EmptyString => (1, s1)
    end in
  match scan_digits 0 PStart s2 with
  | Some n => Ok (sign * n)
  | None => Raise ValueError
  end.

(** [int(text)]; the text is a piece of decoded text, so the last case does
    not arise (see [split_colon_code_points]). *)
Definition py_int (text : string) : result Z :=
  if string_forall is_ascii text then PyLong_FromString text
  else
    match utf8_code_points text with
    | Some cps => PyLong_FromString (to_ascii_digits cps)
    | None => Raise ValueError
    end.

(** ** The write handler *)

(** The body of the [try] block of [on_write]. *)
Definition on_write_try (data : string) (s : ChessSystem) : result ChessSystem :=
  let parts := split_colon data in
  p2 <- py_index parts 2 ;;
  elo_val <- py_int p2 ;;
  p4 <- py_index parts 4 ;;
  time_val <- py_int p4 ;;
  Ok (start_new_game elo_val time_val s).

(** [on_write(characteristic, value)]: the state after the call, or the
    exception that escapes it. *)
Definition on_write (value : string) (s : ChessSystem) : result ChessSystem :=
  data <- decode_utf8 value ;;
  if String.prefix "START_GAME:ELO:" data then
    try_except (on_write_try data s) (fun _ => s)
  else Ok s.

(** ** Runs of the controller *)

(** What the two polling loops can do between two commands. *)
Inductive Action : Type :=
| Tick
| Buttons (btn_white btn_black : bool).

Definition act (a : Action) (s : ChessSystem) : ChessSystem :=
  match a with
  | Tick => update_timer s
  | Buttons w b => watch_buttons w b s
  end.

Fixpoint run (acts : list Action) (s : ChessSystem) : ChessSystem :=
  match acts with
  | [] => s
  | a :: rest => run rest (act a s)
  end.

(** The press of exactly one button, the one of [side]. *)
Definition OnTurnSignal (side : Color) (s : ChessSystem) : ChessSystem :=
  watch_buttons (Bool.eqb side WHITE) (Bool.eqb side BLACK) s.

(** The text of a well-formed start command. *)
Definition start_command (elo_val minutes : Z) : string :=
  ("START_GAME:ELO:" ++ py_str elo_val ++ ":TIME:" ++ py_str minutes)%string.

Definition is_digit (c : ascii) : bool :=
  match digit_val c with
  | Some _ => true
  | None => false
  end.

Definition not_colon (c : ascii) : bool := negb (Ascii.eqb c ":").

(** The remaining time of a side. *)
Definition time_of (side : Color) (s : ChessSystem) : Z :=
  if Bool.eqb side WHITE then white_time s else black_time s.

(** Everything but the display: the state the clock logic owns. *)
Definition same_game (s s' : ChessSystem) : Prop :=
  board s' = board s /\ elo s' = elo s /\
  white_time s' = white_time s /\ black_time s' = black_time s /\
  current_turn s' = current_turn s /\ game_active s' = game_active s.

(** Number of frames pushed to the display so far. *)
Definition frames_shown (s : ChessSystem) : nat :=
  match device s with
  | None => O
  | Some shown => List.length shown
  end.

(** ** Vocabulary of the specification *)

(** A tick as the specification words it: the clock of the side to move goes
    down by one and is floored at zero, the other clock stays, and the game
    ends exactly when a clock is at or below zero. *)
Definition Tick_floors_at_zero (s : ChessSystem) : Prop :=
  let side := current_turn s in
  let s' := update_timer s in
  time_of side s' = Z.max 0 (time_of side s - 1) /\
  time_of (opponent side) s' = time_of (opponent side) s /\
  (game_active s' = false <-> white_time s' <= 0 \/ black_time s' <= 0).

(** The two numbers a command carries, as the handler reads them: the fields
    at index 2 and 4. *)
Definition command_fields (data : string) : result (Z * Z) :=
  let parts := split_colon data in
  p2 <- py_index parts 2 ;;
  elo_val <- py_int p2 ;;
  p4 <- py_index parts 4 ;;
  time_val <- py_int p4 ;;
  Ok (elo_val, time_val).

(** The bytes [value] are a start command that carries [elo_val] and
    [minutes]. *)
Definition delivers (value : string) (elo_val minutes : Z) : Prop :=
  utf8_valid value = true /\
  String.prefix "START_GAME:ELO:" value = true /\
  command_fields value = Ok (elo_val, minutes).

(** The field at index [i], empty when there is none. *)
Definition field (i : nat) (data : string) : string :=
  nth i (split_colon data) EmptyString.

Definition not_an_integer (text : string) : Prop := py_int text = Raise ValueError.

(** A malformed command as the specification words it: the number of fields
    is not five, or a number field is not an integer. *)
Definition malformed (data : string) : Prop :=
  List.length (split_colon data) <> 5%nat \/
  not_an_integer (field 2 data) \/ not_an_integer (field 4 data).

(** What the handler itself turns down: too few fields to hold both numbers,
    or a number field that is not an integer. *)
Definition unreadable (data : string) : Prop :=
  (List.length (split_colon data) < 5)%nat \/
  not_an_integer (field 2 data) \/ not_an_integer (field 4 data).

(** The call pushed exactly one new frame, drawn from the resulting state. *)
Definition rendered (s s' : ChessSystem) : Prop :=
  device s' = option_map (cons (clock_frame s')) (device s).

(** The pieces of [s] between its colons are well-formed UTF-8. *)
Definition parts_valid (s : string) : Prop :=
  exists p ps, split_colon s = p :: ps /\ utf8_valid p = true /\
               Forall (fun q => utf8_valid q = true) ps.

(** ** The whole controller *)

(** The game fields of a state, without the display. *)
Definition game_fields (s : ChessSystem) : Board * Z * Z * Z * Color * bool :=
  (board s, elo s, white_time s, black_time s, current_turn s, game_active s).

(** The state after a call of [on_write], whether it returned or raised: the
    only call that can raise is [decode], which comes before any assignment. *)
Definition after_write (value : string) (s : ChessSystem) : ChessSystem :=
  match on_write value s with
  | Ok s' => s'
  | Raise _ => s
  end.

(** What happens once [run_server] is up: an iteration of one of the two
    loops, or a write from the peer. *)
Inductive Event : Type :=
| Loop (a : Action)
| Write (value : string).

Definition step (e : Event) (s : ChessSystem) : ChessSystem :=
  match e with
  | Loop a => act a s
  | Write value => after_write value s
  end.

Fixpoint steps (es : list Event) (s : ChessSystem) : ChessSystem :=
  match es with
  | [] => s
  | e :: rest => steps rest (step e s)
  end.

(** The newest frame on the display, if there is a display, is the picture of
    the current state. *)
Definition in_sync (s : ChessSystem) : Prop :=
  match device s with
  | None => True
  | Some [] => False
  | Some (frame :: _) => frame = clock_frame s
  end.

Fixpoint count_ticks (acts : list Action) : nat :=
  match acts with
  | [] => O
  | Tick :: rest => S (count_ticks rest)
  | Buttons _ _ :: rest => count_ticks rest
  end.

Definition is_tick (a : Action) : bool :=
  match a with
  | Tick => true
  | Buttons _ _ => false
  end.


(** A start command with any text in place of [TIME] and anything after the
    minutes. *)
Definition loose_command (elo_val minutes : Z) (label tail : string) : string :=
  ("START_GAME:ELO:" ++ py_str elo_val ++ ":" ++ label ++ ":"
     ++ py_str minutes ++ tail)%string.

(** Reads a clock text back: minutes, a colon, seconds. *)
Definition read_clock (text : string) : option Z :=
  match split_colon text with
  | [mm; ss] =>
      match py_int mm, py_int ss with
      | Ok m, Ok sec => Some (60 * m + sec)
      | _, _ => None
      end
  | _ => None
  end.

(** In a game started with a positive time, after [n] ticks: either the game
    is in progress, both clocks are positive and exactly [n] seconds have been
    taken off in total, or it is over with one clock at 0 and the other
    positive; no clock has lost more than [n] seconds. *)
Definition on_course (total : Z) (n : Z) (s : ChessSystem) : Prop :=
  total - n <= white_time s /\ total - n <= black_time s /\
  ((game_active s = true /\ 0 < white_time s /\ 0 < black_time s /\
    white_time s + black_time s = 2 * total - n)
   \/
   (game_active s = false /\
    ((white_time s = 0 /\ 0 < black_time s) \/
     (black_time s = 0 /\ 0 < white_time s)))).

(** ** Proof automation *)

(** Splits on every integer test that guards a branch of the goal. *)
Ltac case_tests :=
  repeat (cbn in *;
          match goal with
          | |- context [Z.gtb ?a ?b] => destruct (Z.gtb_spec a b)
          | |- context [Z.leb ?a ?b] => destruct (Z.leb_spec a b)
          | |- context [Z.ltb ?a ?b] => destruct (Z.ltb_spec a b)
          end);
  cbn in *.

(** Opens a state into its fields, by cases on the display and on the side
    to move. *)
Ltac open_state s :=
  destruct s as [[?shown|] ?bd ?e ?wt ?bt [|] ?active].

(** * Properties of the clock state machine *)

Section Clock.

Implicit Types s : ChessSystem.

Lemma draw_clock_same_game s : same_game s (draw_clock s).
Proof.
  unfold draw_clock, same_game. destruct (device s); cbn; repeat split.
Qed.

Lemma draw_clock_white_time s : white_time (draw_clock s) = white_time s.
Proof. apply (draw_clock_same_game s). Qed.

Lemma draw_clock_black_time s : black_time (draw_clock s) = black_time s.
Proof. apply (draw_clock_same_game s). Qed.

Lemma draw_clock_current_turn s : current_turn (draw_clock s) = current_turn s.
Proof. apply (draw_clock_same_game s). Qed.

Lemma draw_clock_game_active s : game_active (draw_clock s) = game_active s.
Proof. apply (draw_clock_same_game s). Qed.

Lemma draw_clock_elo s : elo (draw_clock s) = elo s.
Proof. apply (draw_clock_same_game s). Qed.

Lemma draw_clock_board s : board (draw_clock s) = board s.
Proof. apply (draw_clock_same_game s). Qed.

Lemma draw_clock_device s :
  device (draw_clock s) = option_map (cons (clock_frame s)) (device s).
Proof. unfold draw_clock. destruct s as [[shown|] ? ? ? ? ? ?]; reflexivity. Qed.

End Clock.

(** What one timer iteration does to the game fields of an active game. *)
Lemma update_timer_active (s : ChessSystem) :
  game_active s = true ->
  let side := current_turn s in
  let s' := update_timer s in
  time_of side s' =
    (if time_of side s >? 0 then time_of side s - 1 else time_of side s) /\
  time_of (opponent side) s' = time_of (opponent side) s /\
  current_turn s' = side /\ elo s' = elo s /\ board s' = board s /\
  game_active s' = negb ((white_time s' <=? 0) || (black_time s' <=? 0)).
Proof.
  intros Hact side s'. subst side s'. unfold update_timer. rewrite Hact.
  open_state s; cbn in Hact; subst;
    unfold draw_clock; case_tests; repeat split; try reflexivity; try lia.
Qed.

(** An inactive game is not touched by the timer, not even redrawn. *)
Lemma update_timer_inactive (s : ChessSystem) :
  game_active s = false -> update_timer s = s.
Proof. intros Hact. unfold update_timer. now rewrite Hact. Qed.

(** An inactive game is not touched by the button loop. *)
Lemma watch_buttons_inactive (w b : bool) (s : ChessSystem) :
  game_active s = false -> watch_buttons w b s = s.
Proof. intros Hact. unfold watch_buttons. now rewrite Hact. Qed.

(** The button loop never touches the clocks. *)
Lemma watch_buttons_times (w b : bool) (s : ChessSystem) :
  white_time (watch_buttons w b s) = white_time s /\
  black_time (watch_buttons w b s) = black_time s /\
  game_active (watch_buttons w b s) = game_active s.
Proof.
  unfold watch_buttons.
  destruct (game_active s) eqn:Hact; [ | now rewrite Hact ].
  destruct (w && _); [ | destruct (b && _) ];
    rewrite ?draw_clock_white_time, ?draw_clock_black_time,
            ?draw_clock_game_active; cbn; auto.
Qed.

(** The timer never raises a clock, and keeps a non-negative clock
    non-negative. *)
Lemma update_timer_times (s : ChessSystem) :
  white_time (update_timer s) <= white_time s /\
  black_time (update_timer s) <= black_time s /\
  (0 <= white_time s -> 0 <= white_time (update_timer s)) /\
  (0 <= black_time s -> 0 <= black_time (update_timer s)).
Proof.
  unfold update_timer. destruct (game_active s) eqn:Hact; [ | lia ].
  open_state s; cbn in Hact; subst;
    unfold draw_clock; case_tests; repeat split; lia.
Qed.

Lemma act_times (a : Action) (s : ChessSystem) :
  white_time (act a s) <= white_time s /\
  black_time (act a s) <= black_time s /\
  (0 <= white_time s -> 0 <= white_time (act a s)) /\
  (0 <= black_time s -> 0 <= black_time (act a s)).
Proof.
  destruct a as [|w b]; cbn [act].
  - apply update_timer_times.
  - destruct (watch_buttons_times w b s) as (-> & -> & _). lia.
Qed.

Lemma run_times (acts : list Action) (s : ChessSystem) :
  white_time (run acts s) <= white_time s /\
  black_time (run acts s) <= black_time s /\
  (0 <= white_time s -> 0 <= white_time (run acts s)) /\
  (0 <= black_time s -> 0 <= black_time (run acts s)).
Proof.
  revert s. induction acts as [|a rest IH]; intros s; cbn [run].
  - lia.
  - specialize (IH (act a s)). pose proof (act_times a s). lia.
Qed.

Lemma run_app (xs ys : list Action) (s : ChessSystem) :
  run (xs ++ ys) s = run ys (run xs s).
Proof.
  revert s. induction xs as [|a xs IH]; intros s; cbn; [ reflexivity | apply IH ].
Qed.

Lemma run_inactive (acts : list Action) (s : ChessSystem) :
  game_active s = false -> run acts s = s.
Proof.
  induction acts as [|a rest IH]; intros Hact; cbn [run]; [ reflexivity | ].
  assert (act a s = s) as ->.
  { destruct a; cbn [act];
      [ now apply update_timer_inactive | now apply watch_buttons_inactive ]. }
  now apply IH.
Qed.

Lemma start_new_game_fields (elo_val minutes : Z) (s : ChessSystem) :
  let s' := start_new_game elo_val minutes s in
  white_time s' = minutes * 60 /\ black_time s' = minutes * 60 /\
  current_turn s' = WHITE /\ game_active s' = true /\
  elo s' = elo_val /\ board s' = chess_Board.
Proof.
  unfold start_new_game.
  rewrite draw_clock_white_time, draw_clock_black_time, draw_clock_current_turn,
    draw_clock_game_active, draw_clock_elo, draw_clock_board.
  cbn. repeat split.
Qed.

(** * Decimal text: printing and reading back *)

Section Decimal.

Lemma digit_val_digit_char (d : Z) :
  0 <= d < 10 -> digit_val (digit_char d) = Some d.
Proof.
  intros Hd.
  assert (d = 0 \/ d = 1 \/ d = 2 \/ d = 3 \/ d = 4 \/ d = 5 \/ d = 6 \/
          d = 7 \/ d = 8 \/ d = 9) as Hcases by lia.
  repeat (destruct Hcases as [-> | Hcases]; [ reflexivity | ]).
  subst d. reflexivity.
Qed.

(** A property of characters that holds of the ten digits holds of every
    character that [digits_fuel] prints. *)
Lemma digits_fuel_forall (P : ascii -> bool) :
  (forall d, 0 <= d < 10 -> P (digit_char d) = true) ->
  forall fuel n acc,
    string_forall P acc = true ->
    string_forall P (digits_fuel fuel n acc) = true.
Proof.
  intros HP fuel. induction fuel as [|f IH]; intros n acc Hacc; cbn [digits_fuel].
  - exact Hacc.
  - assert (string_forall P (String (digit_char (n mod 10)) acc) = true) as Hacc'.
    { cbn. rewrite HP, Hacc; [ reflexivity | ]. apply Z.mod_pos_bound. lia. }
    destruct (n <? 10); [ exact Hacc' | now apply IH ].
Qed.

Lemma digits_fuel_length (fuel : nat) (n : Z) (acc : string) :
  (String.length acc <= String.length (digits_fuel fuel n acc))%nat.
Proof.
  revert n acc. induction fuel as [|f IH]; intros n acc; cbn [digits_fuel].
  - lia.
  - destruct (n <? 10); [ cbn; lia | ].
    etransitivity; [ | apply IH ]. cbn. lia.
Qed.

Lemma digits_nonempty (n : Z) : (1 <= String.length (digits n))%nat.
Proof.
  unfold digits. cbn [digits_fuel].
  destruct (n <? 10); [ cbn; lia | ].
  etransitivity; [ | apply digits_fuel_length ]. cbn. lia.
Qed.

(** Reading the digits of [n] continues the number read so far. *)
Lemma scan_digits_digits_fuel (fuel : nat) :
  forall n acc,
    0 <= n < 2 ^ Z.of_nat (S fuel) ->
    exists k, 0 <= k /\
      forall a p,
        scan_digits a p (digits_fuel (S fuel) n acc)
        = scan_digits (a * 10 ^ k + n) PDigit acc.
Proof.
  induction fuel as [|f IH]; intros n acc Hn.
  - exists 1. split; [ lia | ]. intros a p.
    assert (n < 10) as Hlt by (change (2 ^ Z.of_nat 1) with 2 in Hn; lia).
    cbn [digits_fuel]. rewrite (proj2 (Z.ltb_lt n 10) Hlt). cbn [scan_digits].
    rewrite Z.mod_small by lia. rewrite digit_val_digit_char by lia.
    f_equal; lia.
  - cbn [digits_fuel]. destruct (Z.ltb_spec n 10) as [Hlt|Hge].
    + exists 1. split; [ lia | ]. intros a p. cbn [scan_digits].
      rewrite Z.mod_small by lia. rewrite digit_val_digit_char by lia.
      f_equal; lia.
    + destruct (IH (n / 10) (String (digit_char (n mod 10)) acc)) as (k & Hk & Hscan).
      { split; [ apply Z.div_pos; lia | ].
        apply Z.div_lt_upper_bound; [ lia | ].
        rewrite Nat2Z.inj_succ, Z.pow_succ_r in Hn by lia. lia. }
      exists (k + 1). split; [ lia | ]. intros a p.
      rewrite Hscan. cbn [scan_digits].
      rewrite digit_val_digit_char by (apply Z.mod_pos_bound; lia).
      f_equal; rewrite Z.pow_add_r by lia.
      pose proof (Z.div_mod n 10); lia.
Qed.

Lemma digits_fuel_bound (n : Z) :
  0 <= n -> n < 2 ^ Z.of_nat (S (Z.to_nat (Z.log2 n))).
Proof.
  intros Hn. rewrite Nat2Z.inj_succ, Z2Nat.id by apply Z.log2_nonneg.
  destruct (Z.eq_dec n 0) as [->|Hnz]; [ reflexivity | ].
  apply Z.log2_spec. lia.
Qed.

Lemma scan_digits_digits (n : Z) (p : prev) :
  0 <= n -> scan_digits 0 p (digits n) = Some n.
Proof.
  intros Hn. unfold digits.
  destruct (scan_digits_digits_fuel (Z.to_nat (Z.log2 n)) n EmptyString)
    as (k & _ & Hscan).
  { split; [ exact Hn | now apply digits_fuel_bound ]. }
  rewrite Hscan. reflexivity.
Qed.

(** The first character of [digits n] is a digit, so nothing is stripped in
    front of it and it is not taken for a sign. *)
Lemma digits_head (n : Z) :
  exists c r, digits n = String c r /\ digit_val c <> None.
Proof.
  assert (string_forall is_digit (digits n) = true) as Hall.
  { apply digits_fuel_forall; [ | reflexivity ].
    intros d Hd. unfold is_digit. now rewrite digit_val_digit_char. }
  pose proof (digits_nonempty n) as Hlen.
  destruct (digits n) as [|c r]; [ cbn in Hlen; lia | ].
  exists c, r. split; [ reflexivity | ].
  cbn in Hall. apply andb_true_iff in Hall. destruct Hall as [Hc _].
  unfold is_digit in Hc. now destruct (digit_val c).
Qed.

Lemma digit_val_class (c : ascii) :
  digit_val c <> None ->
  is_space c = false /\ Ascii.eqb c "+" = false /\ Ascii.eqb c "-" = false /\
  Ascii.eqb c ":" = false /\ (byte_of c <? 128)%N = true.
Proof.
  unfold digit_val, is_space, in_range. intros Hc.
  destruct (48 <=? byte_of c)%N eqn:Hlo; [ | now cbn in Hc ].
  destruct (byte_of c <=? 57)%N eqn:Hhi; [ | now cbn in Hc ].
  apply N.leb_le in Hlo, Hhi.
  assert (forall k : N, (k < 48)%N -> Ascii.eqb c (ascii_of_N k) = false) as Hlow.
  { intros k Hk. apply Ascii.eqb_neq. intros ->.
    unfold byte_of in Hlo. rewrite N_ascii_embedding in Hlo by lia. lia. }
  repeat split.
  - apply orb_false_iff. split.
    + apply andb_false_iff. right. apply N.leb_gt. lia.
    + apply N.eqb_neq. lia.
  - apply (Hlow 43%N). lia.
  - apply (Hlow 45%N). lia.
  - apply Ascii.eqb_neq. intros ->. cbn in Hhi. lia.
  - apply N.ltb_lt. lia.
Qed.

Lemma PyLong_FromString_minus (r : string) :
  PyLong_FromString (String "-" r)
  = match scan_digits 0 PStart r with
    | Some n => Ok (-1 * n)
    | None => Raise ValueError
    end.
Proof. reflexivity. Qed.

Lemma PyLong_FromString_zero (r : string) :
  PyLong_FromString (String "0" r)
  = match scan_digits 0 PDigit r with
    | Some n => Ok (1 * n)
    | None => Raise ValueError
    end.
Proof. reflexivity. Qed.

Lemma PyLong_FromString_py_str (n : Z) : PyLong_FromString (py_str n) = Ok n.
Proof.
  unfold py_str. destruct (Z.ltb_spec n 0) as [Hneg|Hpos].
  - rewrite PyLong_FromString_minus, scan_digits_digits by lia. f_equal; lia.
  - destruct (digits_head n) as (c & r & Hd & Hc).
    pose proof (scan_digits_digits n PStart Hpos) as Hscan.
    rewrite Hd in *. destruct (digit_val_class c Hc) as (Hsp & Hplus & Hminus & _).
    unfold PyLong_FromString. cbn [lstrip].
    rewrite Hsp, Hplus, Hminus, Hscan. f_equal; lia.
Qed.

Lemma PyLong_FromString_fmt_02d (n : Z) : PyLong_FromString (fmt_02d n) = Ok n.
Proof.
  unfold fmt_02d. destruct (Z.ltb_spec n 0) as [Hneg|Hpos].
  - rewrite PyLong_FromString_minus, scan_digits_digits by lia. f_equal; lia.
  - destruct (String.length (digits n) <? 2)%nat.
    + rewrite PyLong_FromString_zero, scan_digits_digits by lia. f_equal; lia.
    + pose proof (PyLong_FromString_py_str n) as H. unfold py_str in H.
      now rewrite (proj2 (Z.ltb_ge n 0) Hpos) in H.
Qed.

(** On pure ASCII text [int] is [PyLong_FromString]. *)
Lemma py_int_ascii (text : string) :
  string_forall is_ascii text = true -> py_int text = PyLong_FromString text.
Proof. intros H. unfold py_int. now rewrite H. Qed.

End Decimal.

(** * Well-formed start commands are understood *)

Section Commands.

Lemma string_forall_app (P : ascii -> bool) (a b : string) :
  string_forall P (a ++ b) = string_forall P a && string_forall P b.
Proof.
  induction a as [|c a IH]; cbn; [ reflexivity | ].
  now rewrite IH, andb_assoc.
Qed.

Lemma py_str_forall (P : ascii -> bool) (n : Z) :
  (forall d, 0 <= d < 10 -> P (digit_char d) = true) ->
  P "-"%char = true ->
  string_forall P (py_str n) = true.
Proof.
  intros Hdig Hminus. unfold py_str, digits.
  destruct (n <? 0); cbn [string_forall]; rewrite ?Hminus;
    now apply digits_fuel_forall.
Qed.

Lemma digit_char_class (d : Z) :
  0 <= d < 10 ->
  not_colon (digit_char d) = true /\ is_ascii (digit_char d) = true.
Proof.
  intros Hd.
  destruct (digit_val_class (digit_char d)) as (_ & _ & _ & Hcolon & Hascii).
  { now rewrite digit_val_digit_char. }
  unfold not_colon, is_ascii. now rewrite Hcolon, Hascii.
Qed.

Lemma py_str_not_colon (n : Z) : string_forall not_colon (py_str n) = true.
Proof.
  apply py_str_forall; [ | reflexivity ]. intros d Hd. now apply digit_char_class.
Qed.

Lemma py_str_is_ascii (n : Z) : string_forall is_ascii (py_str n) = true.
Proof.
  apply py_str_forall; [ | reflexivity ]. intros d Hd. now apply digit_char_class.
Qed.

Lemma fmt_02d_is_ascii (n : Z) : string_forall is_ascii (fmt_02d n) = true.
Proof.
  assert (forall k, string_forall is_ascii (digits k) = true) as Hdig.
  { intros k. apply digits_fuel_forall; [ | reflexivity ].
    intros d Hd. now apply digit_char_class. }
  unfold fmt_02d. destruct (n <? 0); [ cbn [string_forall]; now rewrite Hdig | ].
  destruct (String.length (digits n) <? 2)%nat;
    [ cbn [string_forall]; now rewrite Hdig | apply Hdig ].
Qed.

(** [int(str(n)) == n] *)
Lemma py_int_py_str (n : Z) : py_int (py_str n) = Ok n.
Proof.
  rewrite py_int_ascii by apply py_str_is_ascii. apply PyLong_FromString_py_str.
Qed.

(** [int(f"{n:02d}") == n] *)
Lemma py_int_fmt_02d (n : Z) : py_int (fmt_02d n) = Ok n.
Proof.
  rewrite py_int_ascii by apply fmt_02d_is_ascii. apply PyLong_FromString_fmt_02d.
Qed.

Lemma split_colon_nonempty (s : string) : split_colon s <> [].
Proof.
  destruct s as [|c r]; cbn; [ discriminate | ].
  destruct (Ascii.eqb c ":"); [ discriminate | ].
  destruct (split_colon r); discriminate.
Qed.

(** A field without a colon is split off whole. *)
Lemma split_colon_field (a r : string) :
  string_forall not_colon a = true ->
  split_colon (a ++ String ":" r) = a :: split_colon r.
Proof.
  induction a as [|c a IH]; cbn [append string_forall]; intros Ha.
  - reflexivity.
  - apply andb_true_iff in Ha. destruct Ha as [Hc Ha].
    unfold not_colon in Hc. apply negb_true_iff in Hc.
    cbn [split_colon]. rewrite Hc, (IH Ha). reflexivity.
Qed.

Lemma split_colon_last (a : string) :
  string_forall not_colon a = true -> split_colon a = [a].
Proof.
  induction a as [|c a IH]; cbn [string_forall]; intros Ha.
  - reflexivity.
  - apply andb_true_iff in Ha. destruct Ha as [Hc Ha].
    unfold not_colon in Hc. apply negb_true_iff in Hc.
    cbn [split_colon]. rewrite Hc, (IH Ha). reflexivity.
Qed.

(** ASCII text is well-formed UTF-8. *)
Lemma utf8_valid_ascii (s : string) :
  string_forall is_ascii s = true -> utf8_valid s = true.
Proof.
  induction s as [|c r IH]; cbn [string_forall utf8_valid]; intros Hs.
  - reflexivity.
  - apply andb_true_iff in Hs. destruct Hs as [Hc Hr].
    unfold is_ascii in Hc. rewrite Hc. now apply IH.
Qed.

Lemma split_colon_start_command (elo_val minutes : Z) :
  split_colon (start_command elo_val minutes)
  = ["START_GAME"; "ELO"; py_str elo_val; "TIME"; py_str minutes]%string.
Proof.
  unfold start_command.
  change ("START_GAME:ELO:" ++ py_str elo_val ++ ":TIME:" ++ py_str minutes)%string
    with ("START_GAME" ++ String ":" ("ELO" ++ String ":" (py_str elo_val ++
            String ":" ("TIME" ++ String ":" (py_str minutes)))))%string.
  rewrite !split_colon_field, split_colon_last;
    auto using py_str_not_colon.
Qed.

Lemma decode_utf8_start_command (elo_val minutes : Z) :
  decode_utf8 (start_command elo_val minutes) = Ok (start_command elo_val minutes).
Proof.
  unfold decode_utf8. rewrite utf8_valid_ascii; [ reflexivity | ].
  unfold start_command.
  rewrite !string_forall_app, !py_str_is_ascii. reflexivity.
Qed.

Lemma prefix_append (p r : string) : String.prefix p (p ++ r) = true.
Proof.
  induction p as [|c p IH]; cbn.
  - now destruct r.
  - destruct (ascii_dec c c) as [_|Hne]; [ exact IH | now elim Hne ].
Qed.

(** The handler starts exactly the game that a well-formed command asks for. *)
Lemma on_write_start_command (elo_val minutes : Z) (s : ChessSystem) :
  on_write (start_command elo_val minutes) s
  = Ok (start_new_game elo_val minutes s).
Proof.
  unfold on_write. rewrite decode_utf8_start_command. cbn [bind].
  assert (String.prefix "START_GAME:ELO:" (start_command elo_val minutes) = true) as ->
    by apply prefix_append.
  unfold on_write_try. rewrite split_colon_start_command.
  cbn [py_index nth_error bind]. rewrite !py_int_py_str. reflexivity.
Qed.

End Commands.

(** * Decoded text and its fields *)

Section Utf8.

Lemma utf8_valid_code_points_aux (n : nat) :
  forall s, (String.length s <= n)%nat ->
            utf8_valid s = true -> utf8_code_points s <> None.
Proof.
  induction n as [|n IH]; intros s Hlen Hs.
  - destruct s; [ discriminate | cbn in Hlen; lia ].
  - assert (forall r, (String.length r <= n)%nat -> utf8_valid r = true ->
                      forall cp, option_map (cons cp) (utf8_code_points r) <> None) as Hnext.
    { intros r Hr Hv cp. specialize (IH r Hr Hv).
      destruct (utf8_code_points r); [ discriminate | contradiction ]. }
    destruct s as [|c0 r0]; [ discriminate | ].
    cbn [utf8_valid utf8_code_points] in *. cbn [String.length] in Hlen.
    destruct (byte_of c0 <? 128)%N; [ apply Hnext; [ lia | exact Hs ] | ].
    destruct r0 as [|c1 r1]; [ discriminate | ]. cbn [String.length] in Hlen.
    destruct (in_range 194 223 (byte_of c0)).
    { apply andb_true_iff in Hs. destruct Hs as [-> Hs]. apply Hnext; [ lia | exact Hs ]. }
    destruct r1 as [|c2 r2]; [ discriminate | ]. cbn [String.length] in Hlen.
    destruct (in_range 224 239 (byte_of c0)).
    { apply andb_true_iff in Hs. destruct Hs as [-> Hs]. apply Hnext; [ lia | exact Hs ]. }
    destruct r2 as [|c3 r3]; [ discriminate | ]. cbn [String.length] in Hlen.
    apply andb_true_iff in Hs. destruct Hs as [-> Hs]. apply Hnext; [ lia | exact Hs ].
Qed.

Lemma utf8_valid_code_points (s : string) :
  utf8_valid s = true -> utf8_code_points s <> None.
Proof. apply (utf8_valid_code_points_aux (String.length s)). lia. Qed.

Lemma high_byte_not_colon (c : ascii) :
  (byte_of c <? 128)%N = false -> Ascii.eqb c ":" = false.
Proof. intros H. apply Ascii.eqb_neq. intros ->. discriminate H. Qed.

Lemma is_cont_not_colon (c : ascii) : is_cont c = true -> Ascii.eqb c ":" = false.
Proof.
  unfold is_cont, in_range. intros H. apply andb_true_iff in H. destruct H as [H _].
  apply high_byte_not_colon. apply N.ltb_ge. apply N.leb_le in H. lia.
Qed.

Lemma split_colon_other (c : ascii) (r : string) :
  Ascii.eqb c ":" = false ->
  exists p ps, split_colon r = p :: ps /\ split_colon (String c r) = String c p :: ps.
Proof.
  intros Hc. cbn [split_colon]. rewrite Hc.
  destruct (split_colon r) as [|p ps] eqn:Hr.
  - now destruct (split_colon_nonempty r).
  - now exists p, ps.
Qed.

Lemma parts_valid_other (c : ascii) (r : string) :
  Ascii.eqb c ":" = false -> parts_valid r ->
  exists p ps, split_colon (String c r) = String c p :: ps /\
               utf8_valid p = true /\ Forall (fun q => utf8_valid q = true) ps.
Proof.
  intros Hc (p & ps & Hr & Hp & Hps).
  destruct (split_colon_other c r Hc) as (p' & ps' & Hr' & Hs).
  rewrite Hr in Hr'. injection Hr' as <- <-. now exists p, ps.
Qed.

Lemma split_colon_valid_aux (n : nat) :
  forall s, (String.length s <= n)%nat -> utf8_valid s = true -> parts_valid s.
Proof.
  induction n as [|n IH]; intros s Hlen Hs.
  - destruct s; [ | cbn in Hlen; lia ]. exists EmptyString, []. now repeat split.
  - destruct s as [|c0 r0]; [ exists EmptyString, []; now repeat split | ].
    cbn [utf8_valid] in Hs. cbn [String.length] in Hlen.
    destruct (byte_of c0 <? 128)%N eqn:H0.
    { assert (parts_valid r0) as Hr0 by (apply IH; [ lia | exact Hs ]).
      destruct (Ascii.eqb c0 ":") eqn:Hc.
      - destruct Hr0 as (p & ps & Hr & Hp & Hps).
        exists EmptyString, (p :: ps). cbn [split_colon]. rewrite Hc, Hr.
        repeat split. now constructor.
      - destruct (parts_valid_other c0 r0 Hc Hr0) as (p & ps & Hsplit & Hp & Hps).
        exists (String c0 p), ps. repeat split; try assumption.
        cbn [utf8_valid]. now rewrite H0. }
    pose proof (high_byte_not_colon c0 H0) as Hc0.
    destruct r0 as [|c1 r1]; [ discriminate | ]. cbn [String.length] in Hlen.
    destruct (in_range 194 223 (byte_of c0)) eqn:H2.
    { apply andb_true_iff in Hs. destruct Hs as [Hc1 Hs].
      assert (parts_valid r1) as Hr1 by (apply IH; [ lia | exact Hs ]).
      destruct (parts_valid_other c1 r1 (is_cont_not_colon c1 Hc1) Hr1)
        as (p & ps & Hsplit & Hp & Hps).
      destruct (split_colon_other c0 (String c1 r1) Hc0) as (p' & ps' & Hr' & Hs').
      rewrite Hsplit in Hr'. injection Hr' as <- <-.
      exists (String c0 (String c1 p)), ps. repeat split; try assumption.
      cbn [utf8_valid]. now rewrite H0, H2, Hc1. }
    destruct r1 as [|c2 r2]; [ discriminate | ]. cbn [String.length] in Hlen.
    destruct (in_range 224 239 (byte_of c0)) eqn:H3.
    { apply andb_true_iff in Hs. destruct Hs as [Hc12 Hs].
      pose proof Hc12 as Hkeep.
      apply andb_true_iff in Hc12. destruct Hc12 as [Hc1 Hc2].
      assert (Ascii.eqb c1 ":" = false) as Hn1.
      { destruct (byte_of c0 =? 224)%N; [ | destruct (byte_of c0 =? 237)%N ];
          try (now apply is_cont_not_colon);
          unfold in_range in Hc1; apply andb_true_iff in Hc1; destruct Hc1 as [Hc1 _];
          apply high_byte_not_colon; apply N.ltb_ge; apply N.leb_le in Hc1; lia. }
      assert (parts_valid r2) as Hr2 by (apply IH; [ lia | exact Hs ]).
      destruct (parts_valid_other c2 r2 (is_cont_not_colon c2 Hc2) Hr2)
        as (p & ps & Hsplit & Hp & Hps).
      destruct (split_colon_other c1 (String c2 r2) Hn1) as (p' & ps' & Hr' & Hs').
      rewrite Hsplit in Hr'. injection Hr' as <- <-.
      destruct (split_colon_other c0 (String c1 (String c2 r2)) Hc0) as (p' & ps' & Hr' & Hs'').
      rewrite Hs' in Hr'. injection Hr' as <- <-.
      exists (String c0 (String c1 (String c2 p))), ps. repeat split; try assumption.
      cbn [utf8_valid]. now rewrite H0, H2, H3, Hkeep. }
    destruct r2 as [|c3 r3]; [ discriminate | ]. cbn [String.length] in Hlen.
    apply andb_true_iff in Hs. destruct Hs as [Hhead Hs].
    pose proof Hhead as Hkeep.
    apply andb_true_iff in Hhead. destruct Hhead as [Hhead Hc3].
    apply andb_true_iff in Hhead. destruct Hhead as [Hhead Hc2].
    apply andb_true_iff in Hhead. destruct Hhead as [_ Hc1].
    assert (Ascii.eqb c1 ":" = false) as Hn1.
    { destruct (byte_of c0 =? 240)%N; [ | destruct (byte_of c0 =? 244)%N ];
        try (now apply is_cont_not_colon);
        unfold in_range in Hc1; apply andb_true_iff in Hc1; destruct Hc1 as [Hc1 _];
        apply high_byte_not_colon; apply N.ltb_ge; apply N.leb_le in Hc1; lia. }
    assert (parts_valid r3) as Hr3 by (apply IH; [ lia | exact Hs ]).
    destruct (parts_valid_other c3 r3 (is_cont_not_colon c3 Hc3) Hr3)
      as (p & ps & Hsplit & Hp & Hps).
    destruct (split_colon_other c2 (String c3 r3) (is_cont_not_colon c2 Hc2))
      as (p' & ps' & Hr' & Hs2).
    rewrite Hsplit in Hr'. injection Hr' as <- <-.
    destruct (split_colon_other c1 (String c2 (String c3 r3)) Hn1) as (p' & ps' & Hr' & Hs1).
    rewrite Hs2 in Hr'. injection Hr' as <- <-.
    destruct (split_colon_other c0 (String c1 (String c2 (String c3 r3))) Hc0)
      as (p' & ps' & Hr' & Hs0).
    rewrite Hs1 in Hr'. injection Hr' as <- <-.
    exists (String c0 (String c1 (String c2 (String c3 p)))), ps.
    repeat split; try assumption.
    cbn [utf8_valid]. now rewrite H0, H2, H3, Hkeep.
Qed.

Lemma split_colon_code_points (data part : string) :
  utf8_valid data = true -> In part (split_colon data) ->
  utf8_valid part = true /\ utf8_code_points part <> None.
Proof.
  intros Hdata Hin.
  destruct (split_colon_valid_aux (String.length data) data (le_n _) Hdata)
    as (p & ps & Hsplit & Hp & Hps).
  rewrite Hsplit in Hin.
  assert (utf8_valid part = true) as Hpart.
  { destruct Hin as [<- | Hin]; [ exact Hp | ].
    rewrite Forall_forall in Hps. now apply Hps. }
  split; [ exact Hpart | now apply utf8_valid_code_points ].
Qed.

End Utf8.

(** * What the handler accepts and what it turns down *)

Section Handler.

Lemma on_write_try_fields (data : string) (s : ChessSystem) :
  on_write_try data s
  = (x <- command_fields data ;; Ok (start_new_game (fst x) (snd x) s)).
Proof.
  unfold on_write_try, command_fields.
  destruct (py_index (split_colon data) 2) as [p2|]; cbn [bind]; [ | reflexivity ].
  destruct (py_int p2) as [e|]; cbn [bind]; [ | reflexivity ].
  destruct (py_index (split_colon data) 4) as [p4|]; cbn [bind]; [ | reflexivity ].
  destruct (py_int p4) as [m|]; reflexivity.
Qed.

Lemma on_write_delivers (value : string) (elo_val minutes : Z) (s : ChessSystem) :
  delivers value elo_val minutes ->
  on_write value s = Ok (start_new_game elo_val minutes s).
Proof.
  intros (Hutf & Hpre & Hfields). unfold on_write, decode_utf8.
  rewrite Hutf. cbn [bind]. rewrite Hpre, on_write_try_fields, Hfields.
  reflexivity.
Qed.

Lemma delivers_start_command (elo_val minutes : Z) :
  delivers (start_command elo_val minutes) elo_val minutes.
Proof.
  repeat split.
  - pose proof (decode_utf8_start_command elo_val minutes) as H.
    unfold decode_utf8 in H.
    now destruct (utf8_valid (start_command elo_val minutes)).
  - apply prefix_append.
  - unfold command_fields. rewrite split_colon_start_command.
    cbn [py_index nth_error bind]. now rewrite !py_int_py_str.
Qed.

Lemma py_index_field (i : nat) (data : string) :
  py_index (split_colon data) i
  = if (i <? List.length (split_colon data))%nat then Ok (field i data)
    else Raise IndexError.
Proof.
  unfold py_index, field.
  destruct (Nat.ltb_spec i (List.length (split_colon data))) as [Hlt|Hge].
  - destruct (nth_error (split_colon data) i) as [p|] eqn:Hnth.
    + now rewrite (nth_error_nth _ _ _ Hnth).
    + apply nth_error_None in Hnth. lia.
  - now rewrite (proj2 (nth_error_None _ _) Hge).
Qed.

(** An unreadable command has no fields to deliver. *)
Lemma command_fields_unreadable (data : string) :
  unreadable data -> exists e, command_fields data = Raise e.
Proof.
  unfold unreadable, not_an_integer, command_fields. intros Hbad.
  rewrite !py_index_field.
  destruct (Nat.ltb_spec 2 (List.length (split_colon data))) as [H2|H2];
    cbn [bind]; [ | eauto ].
  destruct (py_int (field 2 data)) as [e|x] eqn:Hint2; cbn [bind]; [ | eauto ].
  destruct (Nat.ltb_spec 4 (List.length (split_colon data))) as [H4|H4];
    cbn [bind]; [ | eauto ].
  destruct (py_int (field 4 data)) as [m|x] eqn:Hint4; cbn [bind]; [ | eauto ].
  destruct Hbad as [Hlen | [Hbad | Hbad]]; [ lia | discriminate | discriminate ].
Qed.

Lemma on_write_unreadable (value : string) (s : ChessSystem) :
  utf8_valid value = true -> unreadable value -> on_write value s = Ok s.
Proof.
  intros Hutf Hbad. unfold on_write, decode_utf8. rewrite Hutf. cbn [bind].
  destruct (String.prefix "START_GAME:ELO:" value); [ | reflexivity ].
  rewrite on_write_try_fields.
  destruct (command_fields_unreadable value Hbad) as (e & ->). reflexivity.
Qed.

(** Whatever the bytes, a call that returns either left the state alone or
    started the game that the command delivers. *)
Lemma on_write_cases (value : string) (s s' : ChessSystem) :
  on_write value s = Ok s' ->
  s' = s \/ exists elo_val minutes,
              delivers value elo_val minutes /\
              s' = start_new_game elo_val minutes s.
Proof.
  unfold on_write, decode_utf8.
  destruct (utf8_valid value) eqn:Hutf; cbn [bind]; [ | discriminate ].
  destruct (String.prefix "START_GAME:ELO:" value) eqn:Hpre.
  - rewrite on_write_try_fields.
    destruct (command_fields value) as [[e m]|x] eqn:Hfields; cbn.
    + intros [= <-]. right. exists e, m. now repeat split.
    + intros [= <-]. now left.
  - intros [= <-]. now left.
Qed.

End Handler.

(** * What is drawn *)

Section Rendering.

Lemma clock_frame_draw_clock (s : ChessSystem) :
  clock_frame (draw_clock s) = clock_frame s.
Proof.
  unfold clock_frame.
  now rewrite draw_clock_current_turn, draw_clock_white_time,
    draw_clock_black_time, draw_clock_elo, draw_clock_game_active.
Qed.

Lemma draw_clock_rendered (s : ChessSystem) : rendered s (draw_clock s).
Proof.
  unfold rendered. now rewrite clock_frame_draw_clock, draw_clock_device.
Qed.



End Rendering.

(** * Properties claimed by the specification *)

(** C1, as worded, fails on a clock that is already negative.  The command
    [START_GAME:ELO:1200:TIME:-1] starts a game with both clocks at -60; the
    next tick leaves White's clock at -60: it is neither decremented to -61
    nor floored at 0. *)
Lemma C1_negative_clock_not_floored :
  let s := start_new_game 1200 (-1) (ChessSystem_init None) in
  on_write "START_GAME:ELO:1200:TIME:-1" (ChessSystem_init None) = Ok s /\
  game_active s = true /\ current_turn s = WHITE /\ white_time s = -60 /\
  white_time (update_timer s) = -60 /\
  white_time (update_timer s) <> white_time s - 1 /\
  ~ Tick_floors_at_zero s.
Proof.
  cbv zeta. repeat split; try reflexivity.
  - discriminate.
  - intros (Hfloor & _). vm_compute in Hfloor. discriminate.
Qed.

(** C1, amended: in an active game one tick takes 1 off the clock of the side
    to move when that clock is positive and leaves it as it is otherwise (so
    a non-negative clock goes to [max 0 (t - 1)] and never below 0); the other
    clock is unchanged; afterwards the game is inactive if and only if a clock
    is at or below 0. *)
Theorem C1_tick_decrements_side_to_move (s : ChessSystem) :
  game_active s = true ->
  let side := current_turn s in
  let s' := update_timer s in
  (0 < time_of side s -> time_of side s' = time_of side s - 1) /\
  (time_of side s <= 0 -> time_of side s' = time_of side s) /\
  (0 <= time_of side s -> time_of side s' = Z.max 0 (time_of side s - 1)) /\
  time_of (opponent side) s' = time_of (opponent side) s /\
  (game_active s' = false <-> white_time s' <= 0 \/ black_time s' <= 0).
Proof.
  intros Hact side s'.
  destruct (update_timer_active s Hact) as (Hside & Hother & _ & _ & _ & Hend).
  fold side s' in Hside, Hother, Hend. rewrite Hside, Hend.
  destruct (Z.gtb_spec (time_of side s) 0); repeat split; lia.
Qed.

Lemma C1_tick_witness :
  let s := start_new_game 1200 5 (ChessSystem_init None) in
  game_active s = true /\
  white_time (update_timer s) = 299 /\ black_time (update_timer s) = 300.
Proof.
  cbv zeta. split; [ reflexivity | ].
  pose proof (C1_tick_decrements_side_to_move
                (start_new_game 1200 5 (ChessSystem_init None)) eq_refl)
    as (Hdec & _ & _ & Hother & _).
  split; [ apply Hdec; reflexivity | exact Hother ].
Defined.

(** C2: whatever the state before, idle or in the middle of a game, every
    command that delivers a difficulty and a number of minutes makes the
    handler run [start_new_game], which sets both clocks to [minutes * 60],
    gives the move to White, activates the game, stores the difficulty,
    resets the board and draws the new state; every pair of integers is
    delivered by some command. *)
Theorem C2_start_game_is_a_full_reset (s : ChessSystem) (elo_val minutes : Z) :
  let s' := start_new_game elo_val minutes s in
  delivers (start_command elo_val minutes) elo_val minutes /\
  (forall value, delivers value elo_val minutes -> on_write value s = Ok s') /\
  white_time s' = minutes * 60 /\ black_time s' = minutes * 60 /\
  current_turn s' = WHITE /\ game_active s' = true /\ elo s' = elo_val /\
  board s' = chess_Board /\ rendered s s'.
Proof.
  intros s'. subst s'.
  destruct (start_new_game_fields elo_val minutes s) as (Hw & Hb & Ht & Ha & He & Hbd).
  split; [ apply delivers_start_command | ].
  split; [ intros value Hv; now apply on_write_delivers | ].
  repeat split; try assumption.
  unfold rendered, start_new_game.
  rewrite clock_frame_draw_clock, draw_clock_device. reflexivity.
Qed.

(** C3: a turn signal for [side] hands the move to the opponent of [side]
    (and redraws) exactly when the game is active and it is [side]'s move; in
    every other case the whole state, display included, is unchanged; sending
    the same signal again right away changes nothing. *)
Theorem C3_turn_signal (s : ChessSystem) (side : Color) :
  let s' := OnTurnSignal side s in
  (game_active s = true /\ current_turn s = side ->
     s' = draw_clock (set_current_turn (opponent side) s) /\
     current_turn s' = opponent side) /\
  (~ (game_active s = true /\ current_turn s = side) -> s' = s) /\
  (current_turn s' <> current_turn s <->
     game_active s = true /\ current_turn s = side) /\
  OnTurnSignal side s' = s'.
Proof.
  cbv zeta. unfold OnTurnSignal, watch_buttons.
  destruct side; open_state s; destruct active; cbn;
    repeat split; intros; try reflexivity; try tauto; try congruence;
    try (exfalso; intuition congruence); try discriminate.
Qed.

(** C4: after a game is started with [minutes > 0], along any sequence of
    ticks and button readings both clocks only go down and never get below
    zero: between any two points of the run the later value is at most the
    earlier one, and at least 0. *)
Theorem C4_clocks_go_down_and_stay_nonnegative
    (s0 : ChessSystem) (elo_val minutes : Z) (before after : list Action) :
  0 < minutes ->
  let s1 := run before (start_new_game elo_val minutes s0) in
  let s2 := run after s1 in
  run (before ++ after) (start_new_game elo_val minutes s0) = s2 /\
  0 <= white_time s2 <= white_time s1 /\ white_time s1 <= minutes * 60 /\
  0 <= black_time s2 <= black_time s1 /\ black_time s1 <= minutes * 60.
Proof.
  intros Hmin s1 s2. subst s1 s2. rewrite run_app.
  destruct (start_new_game_fields elo_val minutes s0) as (Hw & Hb & _).
  pose proof (run_times before (start_new_game elo_val minutes s0)) as H1.
  pose proof (run_times after (run before (start_new_game elo_val minutes s0))) as H2.
  rewrite Hw, Hb in H1. split; [ reflexivity | lia ].
Qed.

Lemma C4_clocks_witness :
  let s1 := run [Tick; Buttons true false; Tick]
                (start_new_game 1200 1 (ChessSystem_init None)) in
  let s2 := run [Tick; Buttons false true; Tick] s1 in
  0 <= white_time s2 <= white_time s1 /\ 0 <= black_time s2 <= black_time s1.
Proof.
  cbv zeta.
  pose proof (C4_clocks_go_down_and_stay_nonnegative
                (ChessSystem_init None) 1200 1
                [Tick; Buttons true false; Tick]
                [Tick; Buttons false true; Tick] eq_refl)
    as (_ & Hw & _ & Hb & _).
  split; [ exact Hw | exact Hb ].
Defined.

(** C5: while the game is inactive, no sequence of ticks and button readings
    changes anything, so the game stays inactive; a call of the write handler
    that makes it active again is one whose bytes deliver a start command, and
    its effect is that of [start_new_game], which always activates. *)
Theorem C5_inactive_until_start (s : ChessSystem) :
  game_active s = false ->
  (forall acts, run acts s = s /\ game_active (run acts s) = false) /\
  (forall side, OnTurnSignal side s = s) /\
  (forall value s',
     on_write value s = Ok s' -> game_active s' = true ->
     exists elo_val minutes,
       delivers value elo_val minutes /\ s' = start_new_game elo_val minutes s) /\
  (forall elo_val minutes, game_active (start_new_game elo_val minutes s) = true).
Proof.
  intros Hact. repeat split.
  - now apply run_inactive.
  - now rewrite run_inactive.
  - intros side. now apply watch_buttons_inactive.
  - intros value s' Hw Hact'.
    destruct (on_write_cases value s s' Hw) as [-> | Hstart]; [ congruence | exact Hstart ].
  - intros elo_val minutes. apply (start_new_game_fields elo_val minutes s).
Qed.

Lemma C5_inactive_witness :
  let s := update_timer (start_new_game 1200 0 (ChessSystem_init None)) in
  game_active s = false /\
  run [Tick; Buttons true false; Buttons false true; Tick] s = s.
Proof.
  cbv zeta. split; [ reflexivity | ].
  pose proof (C5_inactive_until_start
                (update_timer (start_new_game 1200 0 (ChessSystem_init None)))
                eq_refl) as (Hrun & _).
  exact (proj1 (Hrun [Tick; Buttons true false; Buttons false true; Tick])).
Defined.

(** C6, as worded, fails: with a display attached and no game in progress a
    tick draws nothing and leaves the state, display included, as it was. *)
Lemma C6_idle_tick_draws_nothing :
  let s := ChessSystem_init (Some []) in
  game_active s = false /\ update_timer s = s /\
  frames_shown (update_timer s) = frames_shown s /\
  ~ rendered s (update_timer s).
Proof.
  cbv zeta. repeat split. intros H. discriminate H.
Qed.

(** C6, amended: a tick that finds the game active draws the clock once, after
    the decrement and the end-of-game test, so the frame shows the resulting
    state (the idle banner included when this tick ended the game); a tick
    that finds the game inactive draws nothing. *)
Theorem C6_tick_renders_when_active (s : ChessSystem) :
  (game_active s = true ->
     rendered s (update_timer s) /\
     (device s <> None -> frames_shown (update_timer s) = S (frames_shown s))) /\
  (game_active s = false ->
     update_timer s = s /\ frames_shown (update_timer s) = frames_shown s).
Proof.
  split; intros Hact.
  - unfold rendered, frames_shown, update_timer. rewrite Hact.
    rewrite clock_frame_draw_clock, draw_clock_device.
    open_state s; cbn in Hact; subst; case_tests; split; congruence.
  - now rewrite update_timer_inactive.
Qed.

(** C10: a freshly constructed controller is inactive, has ten minutes
    (600 seconds) on both clocks, White to move and difficulty 800. *)
Theorem C10_initial_state (dev : option (list Frame)) :
  let s := ChessSystem_init dev in
  game_active s = false /\
  white_time s = 600 /\ black_time s = 600 /\ 600 = 10 * 60 /\
  current_turn s = WHITE /\ elo s = 800 /\
  board s = chess_Board /\ device s = dev.
Proof. cbv zeta. repeat split. Qed.

(** Bytes that are not UTF-8 make the handler raise before it looks at them;
    the [decode] call is outside the [try] block. *)
Lemma on_write_undecodable (value : string) (s : ChessSystem) :
  utf8_valid value = false -> on_write value s = Raise UnicodeDecodeError.
Proof. intros Hutf. unfold on_write, decode_utf8. now rewrite Hutf. Qed.

(** [int] reads the decimal digits and the spaces of every script, so a
    number written in full-width or Arabic-Indic digits is an integer field
    like any other. *)
Example py_int_other_scripts :
  py_int "５" = Ok 5 /\ py_int "٨٠٠" = Ok 800 /\ py_int "-٣" = Ok (-3) /\
  py_int " 1_０　" = Ok 10 /\ py_int "５x" = Raise ValueError /\
  on_write "START_GAME:ELO:800:TIME:５" (ChessSystem_init None)
  = Ok (start_new_game 800 5 (ChessSystem_init None)).
Proof. repeat split; reflexivity. Qed.

(** C7, as worded, fails in two ways.  A command with too many fields: six
    fields are a wrong field count, yet the handler reads fields 2 and 4,
    ignores the rest and starts a game.  A command whose bytes are not UTF-8:
    with the byte 255 as difficulty the field is no integer, and the handler
    raises [UnicodeDecodeError], since [decode] is outside the [try] block. *)
Lemma C7_extra_field_is_accepted :
  let data := "START_GAME:ELO:800:TIME:5:x"%string in
  let bytes := ("START_GAME:ELO:" ++ String (ascii_of_N 255) ":TIME:5")%string in
  let s := ChessSystem_init None in
  List.length (split_colon data) = 6%nat /\ malformed data /\
  on_write data s = Ok (start_new_game 800 5 s) /\
  game_active s = false /\ game_active (start_new_game 800 5 s) = true /\
  on_write data s <> Ok s /\
  malformed bytes /\ on_write bytes s = Raise UnicodeDecodeError.
Proof.
  cbv zeta. repeat split; try reflexivity.
  - left. discriminate.
  - intros H. vm_compute in H. discriminate.
  - right. left. reflexivity.
Qed.

(** C7, amended: a command whose bytes are well-formed UTF-8 and whose text
    has fewer than five colon-separated fields, or a field at index 2 or at
    index 4 that [int] rejects, makes the handler return normally with the
    state exactly as it was; so does [START_GAME:ELO:abc:TIME:5]. *)
Theorem C7_unreadable_command_is_ignored (value : string) (s : ChessSystem) :
  utf8_valid value = true ->
  unreadable value ->
  on_write value s = Ok s /\
  on_write "START_GAME:ELO:abc:TIME:5" s = Ok s.
Proof.
  intros Hutf Hbad. split.
  - now apply on_write_unreadable.
  - apply on_write_unreadable; [ reflexivity | ]. right. left. reflexivity.
Qed.

Lemma C7_unreadable_witness :
  let s := start_new_game 1200 5 (ChessSystem_init (Some [])) in
  unreadable "START_GAME:ELO:12x:TIME:5" /\
  on_write "START_GAME:ELO:12x:TIME:5" s = Ok s.
Proof.
  cbv zeta.
  assert (unreadable "START_GAME:ELO:12x:TIME:5") as Hbad.
  { right. left. reflexivity. }
  split; [ exact Hbad | ].
  exact (proj1 (C7_unreadable_command_is_ignored "START_GAME:ELO:12x:TIME:5"
                  (start_new_game 1200 5 (ChessSystem_init (Some [])))
                  eq_refl Hbad)).
Defined.

(** C8: the handler and [start_new_game] check nothing: for every difficulty
    and every [minutes <= 0], the command that carries them (and any other
    that delivers them) still sets both clocks to [minutes * 60], which is
    zero or negative, stores the difficulty and activates the game. *)
Theorem C8_start_game_does_not_validate (s : ChessSystem) (elo_val minutes : Z) :
  minutes <= 0 ->
  let s' := start_new_game elo_val minutes s in
  on_write (start_command elo_val minutes) s = Ok s' /\
  (forall value, delivers value elo_val minutes -> on_write value s = Ok s') /\
  white_time s' = minutes * 60 /\ black_time s' = minutes * 60 /\
  white_time s' <= 0 /\ black_time s' <= 0 /\
  game_active s' = true /\ elo s' = elo_val.
Proof.
  intros Hmin s'. subst s'.
  destruct (start_new_game_fields elo_val minutes s) as (Hw & Hb & _ & Ha & He & _).
  split; [ apply on_write_start_command | ].
  split; [ intros value Hv; now apply on_write_delivers | ].
  rewrite Hw, Hb. repeat split; try assumption; lia.
Qed.

Lemma C8_no_validation_witness :
  let s := ChessSystem_init None in
  start_command 999999 (-3) = "START_GAME:ELO:999999:TIME:-3"%string /\
  on_write "START_GAME:ELO:999999:TIME:-3" s = Ok (start_new_game 999999 (-3) s) /\
  white_time (start_new_game 999999 (-3) s) = -180 /\
  game_active (start_new_game 999999 (-3) s) = true.
Proof.
  cbv zeta.
  pose proof (C8_start_game_does_not_validate (ChessSystem_init None) 999999 (-3))
    as H.
  specialize (H ltac:(lia)). cbv zeta in H.
  destruct H as (Hw & _ & Hwt & _ & _ & _ & Ha & _).
  split; [ reflexivity | ]. split; [ exact Hw | ]. split; [ exact Hwt | exact Ha ].
Defined.


(** * Further properties of the controller *)

Section Countdown.

(** A tick of a game in progress with time left on both clocks. *)
Lemma update_timer_running (s : ChessSystem) :
  game_active s = true -> 0 < white_time s -> 0 < black_time s ->
  let side := current_turn s in
  let s' := update_timer s in
  time_of side s' = time_of side s - 1 /\
  time_of (opponent side) s' = time_of (opponent side) s /\
  current_turn s' = side /\
  (game_active s' = true <-> 1 < time_of side s).
Proof.
  intros Hact Hw Hb side s'.
  destruct (update_timer_active s Hact) as (Hside & Hother & Hturn & _ & _ & Hend).
  fold side s' in Hside, Hother, Hturn, Hend.
  assert (0 < time_of side s /\ 0 < time_of (opponent side) s) as [Hs Ho].
  { unfold time_of, opponent, side. destruct (current_turn s); cbn; lia. }
  rewrite (proj2 (Z.gtb_lt _ _)) in Hside by lia.
  repeat split; try assumption.
  - intros Hact'. rewrite Hact' in Hend.
    revert Hside Hother Hend. unfold time_of, opponent, side.
    destruct (current_turn s); cbn; lia.
  - intros Hlong. rewrite Hend.
    revert Hside Hother. unfold time_of, opponent, side in *.
    destruct (current_turn s); cbn in *; lia.
Qed.

Lemma times_of_side (side : Color) (s : ChessSystem) :
  (white_time s = time_of side s /\ black_time s = time_of (opponent side) s) \/
  (black_time s = time_of side s /\ white_time s = time_of (opponent side) s).
Proof. unfold time_of, opponent. destruct side; cbn; auto. Qed.

End Countdown.

(** X1: while nobody presses a button, [k] ticks of a game in progress take
    [k] seconds off the clock of the side to move, stopping at 0; the other
    clock and the turn do not change, and the game is still in progress
    exactly when [k] is less than the time that side had. *)
Theorem X1_countdown_without_presses (s : ChessSystem) (k : nat) :
  game_active s = true -> 0 < white_time s -> 0 < black_time s ->
  let side := current_turn s in
  let s' := run (repeat Tick k) s in
  time_of side s' = Z.max 0 (time_of side s - Z.of_nat k) /\
  time_of (opponent side) s' = time_of (opponent side) s /\
  current_turn s' = side /\
  (game_active s' = true <-> Z.of_nat k < time_of side s).
Proof.
  revert s. induction k as [|k IH]; intros s Hact Hw Hb side s'; subst side s'.
  - cbn [repeat run].
    assert (0 < time_of (current_turn s) s) as Hs.
    { unfold time_of. destruct (current_turn s); cbn; lia. }
    repeat split; try lia. now rewrite Hact.
  - cbn [repeat run act].
    destruct (update_timer_running s Hact Hw Hb) as (Hside & Hother & Hturn & Hlive).
    cbv zeta in Hside, Hother, Hturn, Hlive.
    destruct (Z_lt_dec 1 (time_of (current_turn s) s)) as [Hlong|Hshort].
    + assert (0 < white_time (update_timer s) /\ 0 < black_time (update_timer s))
        as [Hw' Hb'].
      { assert (0 < time_of (opponent (current_turn s)) s) as Ho.
        { unfold time_of, opponent. destruct (current_turn s); cbn; lia. }
        destruct (times_of_side (current_turn s) (update_timer s))
          as [[-> ->] | [-> ->]]; lia. }
      specialize (IH (update_timer s) (proj2 Hlive Hlong) Hw' Hb').
      cbv zeta in IH. rewrite Hturn, Hside, Hother in IH.
      destruct IH as (H1 & H2 & H3 & H4).
      repeat split; try assumption; try lia.
      * intros H. apply H4 in H. lia.
      * intros H. apply H4. lia.
    + assert (game_active (update_timer s) = false) as Hover.
      { destruct (game_active (update_timer s)); [ | reflexivity ].
        exfalso. apply Hshort. now apply Hlive. }
      rewrite (run_inactive _ _ Hover).
      assert (0 < time_of (current_turn s) s) as Hs.
      { unfold time_of. destruct (current_turn s); cbn; lia. }
      repeat split; try assumption; try lia.
      intros H. congruence.
Qed.

Lemma X1_countdown_witness :
  let s := start_new_game 1200 5 (ChessSystem_init None) in
  let s' := run (repeat Tick 300) s in
  white_time s' = 0 /\ black_time s' = 300 /\ game_active s' <> true.
Proof.
  cbv zeta.
  pose proof (X1_countdown_without_presses
                (start_new_game 1200 5 (ChessSystem_init None)) 300
                eq_refl eq_refl eq_refl) as (Hw & Hb & _ & Hlive).
  split; [ exact Hw | ]. split; [ exact Hb | ].
  intros H. apply Hlive in H. discriminate H.
Defined.

Section GameLength.

Lemma act_on_course (total n : Z) (a : Action) (s : ChessSystem) :
  on_course total n s ->
  on_course total (n + Z.of_nat (count_ticks [a])) (act a s).
Proof.
  unfold on_course. intros (Hw & Hb & Hcase). destruct a as [|w b]; cbn [act count_ticks].
  - destruct Hcase as [(Hact & H1 & H2 & Hsum) | (Hact & Hover)].
    + unfold update_timer. rewrite Hact.
      open_state s; cbn in Hact; subst; unfold draw_clock; case_tests; lia.
    + rewrite (update_timer_inactive s Hact).
      split; [ lia | ]. split; [ lia | ]. right. split; [ exact Hact | exact Hover ].
  - destruct (watch_buttons_times w b s) as (-> & -> & ->).
    replace (n + Z.of_nat 0) with n by lia. auto.
Qed.

Lemma run_on_course (total : Z) (acts : list Action) :
  forall n s,
    on_course total n s ->
    on_course total (n + Z.of_nat (count_ticks acts)) (run acts s).
Proof.
  induction acts as [|a rest IH]; intros n s Hs.
  - cbn. now rewrite Z.add_0_r.
  - cbn [run]. apply (act_on_course total n a) in Hs. apply IH in Hs.
    replace (n + Z.of_nat (count_ticks (a :: rest)))
      with (n + Z.of_nat (count_ticks [a]) + Z.of_nat (count_ticks rest));
      [ exact Hs | ].
    destruct a; cbn [count_ticks]; lia.
Qed.

Lemma start_on_course (elo_val minutes : Z) (s : ChessSystem) :
  0 < minutes -> on_course (minutes * 60) 0 (start_new_game elo_val minutes s).
Proof.
  intros Hmin. unfold on_course.
  destruct (start_new_game_fields elo_val minutes s) as (-> & -> & _ & -> & _).
  lia.
Qed.

End GameLength.

(** X2: in a game started with [minutes > 0], after any ticks and button
    readings the game is in progress exactly when both clocks are positive,
    and once it is over exactly one clock is at 0 while the other is still
    positive. *)
Theorem X2_active_iff_both_clocks_positive
    (s0 : ChessSystem) (elo_val minutes : Z) (acts : list Action) :
  0 < minutes ->
  let s := run acts (start_new_game elo_val minutes s0) in
  (game_active s = true <-> 0 < white_time s /\ 0 < black_time s) /\
  (game_active s = false ->
     (white_time s = 0 /\ 0 < black_time s) \/
     (black_time s = 0 /\ 0 < white_time s)).
Proof.
  intros Hmin s.
  pose proof (run_on_course (minutes * 60) acts 0 _
                (start_on_course elo_val minutes s0 Hmin)) as (_ & _ & Hcase).
  fold s in Hcase.
  destruct Hcase as [(Hact & Hw & Hb & _) | (Hact & Hover)]; rewrite Hact.
  - repeat split; try assumption. discriminate.
  - split; [ | intros _; exact Hover ].
    split; [ discriminate | ]. lia.
Qed.

Lemma X2_active_witness :
  let s := run [Tick; Buttons true false; Tick]
               (start_new_game 1200 1 (ChessSystem_init None)) in
  game_active s = true <-> 0 < white_time s /\ 0 < black_time s.
Proof.
  cbv zeta.
  exact (proj1 (X2_active_iff_both_clocks_positive
                  (ChessSystem_init None) 1200 1
                  [Tick; Buttons true false; Tick] eq_refl)).
Defined.

(** X3: a game started with [minutes > 0] cannot end before [60 * minutes]
    ticks and cannot last beyond [120 * minutes - 2] ticks, whatever the
    buttons do in between; while it lasts, the two clocks together have lost
    exactly one second per tick. *)
Theorem X3_game_length
    (s0 : ChessSystem) (elo_val minutes : Z) (acts : list Action) :
  0 < minutes ->
  let s := run acts (start_new_game elo_val minutes s0) in
  let ticks := Z.of_nat (count_ticks acts) in
  (ticks < 60 * minutes -> game_active s = true) /\
  (game_active s = true ->
     ticks <= 120 * minutes - 2 /\
     white_time s + black_time s = 120 * minutes - ticks).
Proof.
  intros Hmin s ticks.
  pose proof (run_on_course (minutes * 60) acts 0 _
                (start_on_course elo_val minutes s0 Hmin)) as (Hw & Hb & Hcase).
  fold s in Hw, Hb, Hcase. rewrite Z.add_0_l in Hw, Hb, Hcase. fold ticks in Hw, Hb, Hcase.
  destruct Hcase as [(Hact & H1 & H2 & Hsum) | (Hact & Hover)]; rewrite Hact.
  - split; [ reflexivity | ]. intros _. lia.
  - split; [ lia | discriminate ].
Qed.

Lemma X3_game_length_witness :
  let s := run [Tick; Buttons true false; Tick]
               (start_new_game 1200 1 (ChessSystem_init None)) in
  game_active s = true /\ white_time s + black_time s = 118.
Proof.
  cbv zeta.
  pose proof (X3_game_length (ChessSystem_init None) 1200 1
                [Tick; Buttons true false; Tick] eq_refl) as (Hearly & Hlive).
  cbv zeta in Hearly, Hlive.
  split; [ exact (Hearly eq_refl) | exact (proj2 (Hlive (Hearly eq_refl))) ].
Defined.


Section Frames.

Lemma act_keeps (a : Action) (s : ChessSystem) :
  elo (act a s) = elo s /\ board (act a s) = board s /\
  (is_tick a = true -> current_turn (act a s) = current_turn s) /\
  (is_tick a = false ->
     white_time (act a s) = white_time s /\
     black_time (act a s) = black_time s /\
     game_active (act a s) = game_active s).
Proof.
  destruct a as [|w b]; cbn [act is_tick].
  - unfold update_timer. destruct (game_active s) eqn:Hact.
    + open_state s; cbn in Hact; subst; unfold draw_clock; case_tests;
        repeat split; intros; try reflexivity; discriminate.
    + repeat split; intros; try reflexivity; discriminate.
  - unfold watch_buttons. destruct (game_active s) eqn:Hact.
    + open_state s; destruct w, b; unfold draw_clock; cbn in *;
        repeat split; intros; try reflexivity; try discriminate; assumption.
    + repeat split; intros; try reflexivity; try discriminate; assumption.
Qed.

End Frames.

(** X5: what the two loops never touch.  No run of ticks and button
    readings changes the difficulty or the board; a run of ticks alone never
    changes whose turn it is; a run of button readings alone never changes a
    clock or the active flag. *)
Theorem X5_loops_keep (acts : list Action) (s : ChessSystem) :
  elo (run acts s) = elo s /\ board (run acts s) = board s /\
  (forallb is_tick acts = true -> current_turn (run acts s) = current_turn s) /\
  (forallb (fun a => negb (is_tick a)) acts = true ->
     white_time (run acts s) = white_time s /\
     black_time (run acts s) = black_time s /\
     game_active (run acts s) = game_active s).
Proof.
  revert s. induction acts as [|a rest IH]; intros s; cbn [run forallb].
  - repeat split.
  - destruct (IH (act a s)) as (He & Hb & Hturn & Hclk).
    destruct (act_keeps a s) as (He' & Hb' & Hturn' & Hclk').
    rewrite He, Hb, He', Hb'.
    split; [ reflexivity | ]. split; [ reflexivity | ]. split.
    + intros H. apply andb_true_iff in H. destruct H as [Ha Hrest].
      now rewrite (Hturn Hrest), (Hturn' Ha).
    + intros H. apply andb_true_iff in H. destruct H as [Ha Hrest].
      apply negb_true_iff in Ha.
      destruct (Hclk Hrest) as (-> & -> & ->).
      destruct (Hclk' Ha) as (-> & -> & ->). repeat split.
Qed.

Section Events.

(** A call of the handler either leaves every state alone or starts the same
    game from every state: which one depends on the bytes only. *)
Lemma after_write_cases (value : string) :
  (forall s, after_write value s = s) \/
  (exists elo_val minutes,
     delivers value elo_val minutes /\
     forall s, after_write value s = start_new_game elo_val minutes s).
Proof.
  unfold after_write, on_write, decode_utf8.
  destruct (utf8_valid value) eqn:Hutf; cbn [bind]; [ | now left ].
  destruct (String.prefix "START_GAME:ELO:" value) eqn:Hpre; [ | now left ].
  destruct (command_fields value) as [[e m]|x] eqn:Hfields.
  - right. exists e, m. split; [ now repeat split | ].
    intros s. now rewrite on_write_try_fields, Hfields.
  - left. intros s. now rewrite on_write_try_fields, Hfields.
Qed.

(** Every event either changes nothing at all or ends with [draw_clock]. *)
Lemma step_shape (e : Event) (s : ChessSystem) :
  step e s = s \/
  exists x, step e s = draw_clock x /\ device x = device s.
Proof.
  destruct e as [[|w b]|value]; cbn [step act].
  - unfold update_timer. destruct (game_active s); [ right | now left ].
    eexists. split; [ reflexivity | ].
    destruct (_ && _); [ | destruct (_ && _) ]; destruct (_ || _); reflexivity.
  - unfold watch_buttons. destruct (game_active s); [ | now left ].
    destruct (w && _); [ right; eexists; split; reflexivity | ].
    destruct (b && _); [ right; eexists; split; reflexivity | now left ].
  - destruct (after_write_cases value) as [Hsame | (elo_val & minutes & _ & Hstart)].
    + left. apply Hsame.
    + right. rewrite Hstart. unfold start_new_game.
      eexists. split; reflexivity.
Qed.

Lemma in_sync_draw_clock (s : ChessSystem) : in_sync (draw_clock s).
Proof.
  unfold in_sync. rewrite draw_clock_device, clock_frame_draw_clock.
  now destruct (device s).
Qed.

Lemma step_in_sync (e : Event) (s : ChessSystem) :
  in_sync s -> in_sync (step e s).
Proof.
  intros Hs. destruct (step_shape e s) as [-> | (x & -> & _)];
    [ exact Hs | apply in_sync_draw_clock ].
Qed.

Lemma steps_in_sync (es : list Event) (s : ChessSystem) :
  in_sync s -> in_sync (steps es s).
Proof.
  revert s. induction es as [|e rest IH]; intros s Hs; cbn [steps];
    [ exact Hs | apply IH; now apply step_in_sync ].
Qed.

Lemma game_fields_draw_clock (s : ChessSystem) :
  game_fields (draw_clock s) = game_fields s.
Proof.
  unfold game_fields.
  now rewrite draw_clock_board, draw_clock_elo, draw_clock_white_time,
    draw_clock_black_time, draw_clock_current_turn, draw_clock_game_active.
Qed.

(** The game fields after an event depend on the game fields before it, not
    on the display. *)
Lemma step_game_fields (e : Event) (s1 s2 : ChessSystem) :
  game_fields s1 = game_fields s2 ->
  game_fields (step e s1) = game_fields (step e s2).
Proof.
  intros Hsame. destruct e as [[|w b]|value]; cbn [step act].
  - destruct s1 as [d1 bd1 e1 w1 b1 t1 a1], s2 as [d2 bd2 e2 w2 b2 t2 a2].
    unfold game_fields in Hsame. cbn in Hsame. injection Hsame as -> -> -> -> -> ->.
    unfold update_timer. cbn [game_active].
    destruct a2; [ | reflexivity ].
    rewrite !game_fields_draw_clock. cbn [current_turn white_time black_time].
    destruct (_ && _); [ | destruct (_ && _) ]; cbn;
      destruct (_ || _); reflexivity.
  - destruct s1 as [d1 bd1 e1 w1 b1 t1 a1], s2 as [d2 bd2 e2 w2 b2 t2 a2].
    unfold game_fields in Hsame. cbn in Hsame. injection Hsame as -> -> -> -> -> ->.
    unfold watch_buttons. cbn [game_active current_turn].
    destruct a2; [ | reflexivity ].
    destruct (w && _); [ now rewrite !game_fields_draw_clock | ].
    destruct (b && _); [ now rewrite !game_fields_draw_clock | reflexivity ].
  - destruct (after_write_cases value) as [Hkeep | (elo_val & minutes & _ & Hstart)].
    + now rewrite !Hkeep.
    + rewrite !Hstart. unfold game_fields.
      destruct (start_new_game_fields elo_val minutes s1) as (-> & -> & -> & -> & -> & ->).
      destruct (start_new_game_fields elo_val minutes s2) as (-> & -> & -> & -> & -> & ->).
      reflexivity.
Qed.

Lemma steps_game_fields (es : list Event) (s1 s2 : ChessSystem) :
  game_fields s1 = game_fields s2 ->
  game_fields (steps es s1) = game_fields (steps es s2).
Proof.
  revert s1 s2. induction es as [|e rest IH]; intros s1 s2 Hsame; cbn [steps];
    [ exact Hsame | apply IH; now apply step_game_fields ].
Qed.

End Events.

(** X6: the display has no influence on the game.  Whatever display handle
    the controller holds, a working one with any history or none at all, the
    same events lead to the same board, difficulty, clocks, turn and active
    flag. *)
Theorem X6_game_does_not_depend_on_display
    (d : option (list Frame)) (es : list Event) (s : ChessSystem) :
  game_fields (steps es (set_device d s)) = game_fields (steps es s).
Proof. apply steps_game_fields. reflexivity. Qed.

(** X7: the display is never stale.  Once the clock has been drawn, as
    [run_server] does before its loops start, after any sequence of ticks,
    button readings and writes the newest frame on the display is the picture
    of the current state. *)
Theorem X7_display_shows_current_state (es : list Event) (s0 : ChessSystem) :
  in_sync (steps es (draw_clock s0)) /\
  forall shown, device s0 = Some shown ->
    exists older,
      device (steps es (draw_clock s0))
      = Some (clock_frame (steps es (draw_clock s0)) :: older).
Proof.
  pose proof (steps_in_sync es (draw_clock s0) (in_sync_draw_clock s0)) as Hsync.
  split; [ exact Hsync | ]. intros shown Hdev.
  assert (device (steps es (draw_clock s0)) <> None) as Hsome.
  { assert (device (draw_clock s0) <> None) as H0
      by (rewrite draw_clock_device, Hdev; discriminate).
    revert H0. generalize (draw_clock s0). clear.
    induction es as [|e rest IH]; intros s Hs; cbn [steps]; [ exact Hs | ].
    apply IH. destruct (step_shape e s) as [-> | (x & -> & Hx)]; [ exact Hs | ].
    rewrite draw_clock_device, Hx. now destruct (device s). }
  unfold in_sync in Hsync.
  destruct (device (steps es (draw_clock s0))) as [[|frame older]|];
    [ contradiction | | contradiction ].
  exists older. now rewrite Hsync.
Qed.

(** X8: frames are only ever added.  A sequence of events puts at most one
    new frame per event in front of the frames already shown, and a
    controller without a display stays without one. *)
Theorem X8_frames_only_added (es : list Event) (s : ChessSystem) :
  exists new,
    (List.length new <= List.length es)%nat /\
    device (steps es s) = option_map (app new) (device s).
Proof.
  revert s. induction es as [|e rest IH]; intros s; cbn [steps].
  - exists []. split; [ cbn; lia | now destruct (device s) ].
  - destruct (IH (step e s)) as (new & Hlen & Hdev). rewrite Hdev.
    destruct (step_shape e s) as [-> | (x & -> & Hx)].
    + exists new. split; [ cbn; lia | reflexivity ].
    + exists (new ++ [clock_frame x])%list. split.
      * rewrite length_app. cbn. lia.
      * rewrite draw_clock_device, Hx. destruct (device s); cbn; [ | reflexivity ].
        now rewrite <- app_assoc.
Qed.

(** X9: the only exception that leaves the write handler is the decoding
    error.  Bytes that are not UTF-8 make it raise [UnicodeDecodeError];
    every other write returns, a missing field or a bad number included, and a
    text that does not begin with [START_GAME:ELO:] returns the state as it
    was. *)
Theorem X9_handler_exceptions (value : string) (s : ChessSystem) :
  (utf8_valid value = false -> on_write value s = Raise UnicodeDecodeError) /\
  (utf8_valid value = true -> exists s', on_write value s = Ok s') /\
  (forall e, on_write value s = Raise e ->
             e = UnicodeDecodeError /\ utf8_valid value = false) /\
  (utf8_valid value = true ->
   String.prefix "START_GAME:ELO:" value = false -> on_write value s = Ok s).
Proof.
  unfold on_write, decode_utf8.
  destruct (utf8_valid value); cbn [bind].
  - destruct (String.prefix "START_GAME:ELO:" value).
    + destruct (on_write_try value s) as [s'|x]; cbn [try_except];
        repeat split; intros; try discriminate; eauto.
    + repeat split; intros; try discriminate; eauto.
  - repeat split; intros; try discriminate; try congruence.
Qed.

Section LooseCommands.

Lemma split_colon_tail (a tail : string) :
  string_forall not_colon a = true ->
  tail = EmptyString \/ (exists rest, tail = String ":" rest) ->
  exists more, split_colon (a ++ tail) = a :: more.
Proof.
  intros Ha [-> | (rest & ->)].
  - exists []. assert (a ++ "" = a)%string as ->.
    { clear. induction a as [|c a IH]; cbn; [ reflexivity | now rewrite IH ]. }
    now apply split_colon_last.
  - exists (split_colon rest). now apply split_colon_field.
Qed.

End LooseCommands.

(** X10: the handler looks at nothing but the prefix and the fields at index
    2 and 4.  Any text without a colon may stand where [TIME] is expected, and
    anything may follow the minutes after a further colon: the game is started
    all the same. *)
Theorem X10_label_and_tail_are_ignored
    (elo_val minutes : Z) (label tail : string) (s : ChessSystem) :
  string_forall not_colon label = true ->
  tail = EmptyString \/ (exists rest, tail = String ":" rest) ->
  utf8_valid (loose_command elo_val minutes label tail) = true ->
  on_write (loose_command elo_val minutes label tail) s
  = Ok (start_new_game elo_val minutes s).
Proof.
  intros Hlabel Htail Hutf. apply on_write_delivers.
  split; [ exact Hutf | ]. split; [ apply prefix_append | ].
  unfold command_fields, loose_command.
  destruct (split_colon_tail (py_str minutes) tail (py_str_not_colon minutes) Htail)
    as (more & Hsplit).
  change ("START_GAME:ELO:" ++ py_str elo_val ++ ":" ++ label ++ ":"
            ++ py_str minutes ++ tail)%string
    with ("START_GAME" ++ String ":" ("ELO" ++ String ":" (py_str elo_val ++
            String ":" (label ++ String ":" (py_str minutes ++ tail)))))%string.
  rewrite !split_colon_field, Hsplit; auto using py_str_not_colon.
  cbn [py_index nth_error bind]. now rewrite !py_int_py_str.
Qed.

Lemma X10_label_and_tail_witness :
  let s := ChessSystem_init None in
  loose_command 800 5 "FOO" ":bar:baz" = "START_GAME:ELO:800:FOO:5:bar:baz"%string /\
  on_write "START_GAME:ELO:800:FOO:5:bar:baz" s = Ok (start_new_game 800 5 s).
Proof.
  cbv zeta. split; [ reflexivity | ].
  exact (X10_label_and_tail_are_ignored 800 5 "FOO" ":bar:baz"
           (ChessSystem_init None) eq_refl
           (or_intror (ex_intro _ "bar:baz"%string eq_refl)) eq_refl).
Defined.

Section ClockText.

Lemma fmt_02d_not_colon (n : Z) : string_forall not_colon (fmt_02d n) = true.
Proof.
  assert (forall k, string_forall not_colon (digits k) = true) as Hdig.
  { intros k. apply digits_fuel_forall; [ | reflexivity ].
    intros d Hd. now apply digit_char_class. }
  unfold fmt_02d. destruct (n <? 0); [ cbn [string_forall]; now rewrite Hdig | ].
  destruct (String.length (digits n) <? 2)%nat;
    [ cbn [string_forall]; now rewrite Hdig | apply Hdig ].
Qed.

Lemma read_clock_clock_text (t : Z) : read_clock (clock_text t) = Some t.
Proof.
  unfold read_clock, clock_text, py_divmod.
  change (fmt_02d (t / 60) ++ ":" ++ fmt_02d (t mod 60))%string
    with (fmt_02d (t / 60) ++ String ":" (fmt_02d (t mod 60)))%string.
  rewrite split_colon_field, split_colon_last by apply fmt_02d_not_colon.
  rewrite !py_int_fmt_02d. f_equal.
  pose proof (Z.div_mod t 60). lia.
Qed.

End ClockText.

(** X11: the time on the display can be read back.  Splitting the clock
    text at its colon and reading the two numbers gives back the remaining
    time, for every integer, negative or beyond 99 minutes included; so two
    different remaining times are never drawn as the same text. *)
Theorem X11_clock_text_reads_back (t : Z) :
  read_clock (clock_text t) = Some t /\
  forall t', clock_text t' = clock_text t -> t' = t.
Proof.
  split; [ apply read_clock_clock_text | ].
  intros t' Heq.
  pose proof (read_clock_clock_text t') as H'. rewrite Heq in H'.
  rewrite read_clock_clock_text in H'. now injection H'.
Qed.
